(** * awslist: ARN decomposition, classification and the pagination driver

    A shallow embedding of [main.go].  Go strings are byte strings and are
    modelled by [string]; a [*string] is an [option string] ([None] is the nil
    pointer); a function that can stop with a Go runtime panic returns an
    [outcome]. *)

From Stdlib Require Import String Ascii List Arith Bool ZArith Lia.
Import ListNotations.
Open Scope string_scope.
Open Scope list_scope.

Set Implicit Arguments.

(** ** Outcomes of a Go call *)

(** The run-time panics that the operations used by [main.go] can raise. *)
Inductive runtime_error : Type :=
| NilPointerDereference
| IndexOutOfRange (index len : nat)
| SliceBoundsOutOfRange (low len : nat).

(** The error kinds that the design document lists.  No function of [main.go]
    has an error result, so none of them is ever produced by the definitions
    below (see [classification_reports_no_error_kind]); the type is here so
    that statements about "failing with" one of them can be written down. *)
Inductive ErrorKind : Type :=
| InvalidArnFormat
| MalformedResourcePath
| ApiError
| Cancelled.

Inductive outcome (A : Type) : Type :=
| Returns (a : A)
| Panics (e : runtime_error)
| Fails (k : ErrorKind).

Arguments Returns {A} a.
Arguments Panics {A} e.
Arguments Fails {A} k.

Definition bind {A B : Type} (m : outcome A) (f : A -> outcome B) : outcome B :=
  match m with
  | Returns a => f a
  | Panics e => Panics e
  | Fails k => Fails k
  end.

Notation "x <- m ;; k" := (bind m (fun x => k))
  (at level 61, m at next level, right associativity).

(** [*p] for a [*string]. *)
Definition deref (p : option string) : outcome string :=
  match p with
  | Some s => Returns s
  | None => Panics NilPointerDereference
  end.

(** [a[i]] on a slice. *)
Definition index (a : list string) (i : nat) : outcome string :=
  match nth_error a i with
  | Some s => Returns s
  | None => Panics (IndexOutOfRange i (List.length a))
  end.

(** [a[low:]] on a slice. *)
Definition slice_from (a : list string) (low : nat) : outcome (list string) :=
  if Nat.leb low (List.length a) then Returns (skipn low a)
  else Panics (SliceBoundsOutOfRange low (List.length a)).

(** ** The functions of Go's [strings] package that the program calls *)

Module strings.

Fixpoint HasPrefix (s prefix : string) {struct prefix} : bool :=
  match prefix with
  | EmptyString => true
  | String a prefix' =>
      match s with
      | EmptyString => false
      | String b s' => Ascii.eqb a b && HasPrefix s' prefix'
      end
  end.

(** [Contains s substr]: [substr] occurs somewhere in [s]. *)
Fixpoint Contains (s substr : string) {struct s} : bool :=
  HasPrefix s substr ||
  match s with
  | EmptyString => false
  | String _ s' => Contains s' substr
  end.

(** The scan behind [Replace]: left to right, an occurrence of [old] is
    replaced by [new] and its remaining [skip] bytes are passed over, so
    that occurrences never overlap. *)
Fixpoint replace_from (old new : string) (skip : nat) (s : string) : string :=
  match s with
  | EmptyString => EmptyString
  | String c s' =>
      match skip with
      | S k => replace_from old new k s'
      | O =>
          if HasPrefix s old
          then new ++ replace_from old new (String.length old - 1) s'
          else String c (replace_from old new 0 s')
      end
  end.

(** [Replace s old new (-1)]: every non-overlapping occurrence is replaced.
    With an empty [old] Go inserts [new] around every UTF-8 sequence; the
    program's only call passes a constant, non-empty [old], and the model
    does not cover the empty one (it hands [s] back). *)
Definition Replace (s old new : string) : string :=
  match old with
  | EmptyString => s
  | String _ _ => replace_from old new 0 s
  end.

(** The scan behind [Split] for a non-empty separator; the result always has
    at least one element. *)
Fixpoint split_from (sep : string) (skip : nat) (s : string) : list string :=
  match s with
  | EmptyString => [EmptyString]
  | String c s' =>
      match skip with
      | S k => split_from sep k s'
      | O =>
          if HasPrefix s sep
          then EmptyString :: split_from sep (String.length sep - 1) s'
          else
            match split_from sep 0 s' with
            | piece :: rest => String c piece :: rest
            | [] => [String c EmptyString]
            end
      end
  end.

(** [Split s sep].  With an empty [sep] Go explodes [s] into UTF-8 sequences;
    both calls of the program pass a one-byte separator, and the model does
    not cover the empty one. *)
Definition Split (s sep : string) : list string :=
  match sep with
  | EmptyString => [s]
  | String _ _ => split_from sep 0 s
  end.

Fixpoint Join (elems : list string) (sep : string) : string :=
  match elems with
  | [] => EmptyString
  | [e] => e
  | e :: rest => e ++ sep ++ Join rest sep
  end.

End strings.

(** ** [main.go] *)

(** [SingleResource] defines how each AWS resource is described. *)
Record SingleResource : Type := {
  Region : option string;
  Service : option string;
  Product : option string;
  Details : option string;
  ID : option string;
  ARN : option string
}.

Definition DerefNilPointerStrings (s : option string) : string :=
  match s with
  | None => ""
  | Some v => v
  end.

(** What [PrettyPrintResources] hands to the table writer: the header and the
    rows appended in bulk.  Laying the table out on standard output is the
    table writer's work and is not part of the model.  The slice holds
    pointers to records; every one of them is the address of a record that a
    strategy has just built, so the elements are modelled by the records. *)
Record Table : Type := {
  header : list string;
  border : bool;
  rows : list (list string)
}.

Definition PrettyPrintResources (resources : list SingleResource) : Table :=
  let data :=
    fold_left
      (fun data r =>
         data ++ [[DerefNilPointerStrings (Region r);
                   DerefNilPointerStrings (Service r);
                   DerefNilPointerStrings (Product r);
                   DerefNilPointerStrings (ID r)]])
      resources [] in
  {| header := ["Region"; "Service"; "Product"; "ID"];
     border := true;
     rows := data |}.

Definition ServiceNameFromARN (arn : option string) : outcome (option string) :=
  a <- deref arn ;;
  let shortArn := strings.Replace a "arn:aws:" "" in
  let sliced := strings.Split shortArn ":" in
  s0 <- index sliced 0 ;;
  Returns (Some s0).

Definition ShortArn (arn : option string) : outcome string :=
  a <- deref arn ;;
  let slicedArn := strings.Split a ":" in
  shortArn <- slice_from slicedArn 5 ;;
  Returns (strings.Join shortArn "/").

Definition awsGeneric_ConverToResource (shortArn svc rgn : option string)
  : outcome SingleResource :=
  Returns {| ARN := shortArn; Region := rgn; Service := svc; ID := shortArn;
             Product := None; Details := None |}.

Definition awsEC2_ConvertToResource (shortArn svc rgn : option string)
  : outcome SingleResource :=
  sa <- deref shortArn ;;
  let s := strings.Split sa "/" in
  s0 <- index s 0 ;;
  s1 <- index s 1 ;;
  Returns {| ARN := shortArn; Region := rgn; Service := svc;
             Product := Some s0; ID := Some s1; Details := None |}.

Definition awsECS_ConvertToResource (shortArn svc rgn : option string)
  : outcome SingleResource :=
  sa <- deref shortArn ;;
  let s := strings.Split sa "/" in
  s0 <- index s 0 ;;
  s1 <- index s 1 ;;
  Returns {| ARN := shortArn; Region := rgn; Service := svc;
             Product := Some s0; ID := Some s1; Details := None |}.

Definition ConvertArnToSingleResource (arn svc rgn : option string)
  : outcome SingleResource :=
  shortArn <- ShortArn arn ;;
  v <- deref svc ;;
  if String.eqb v "ec2" then awsEC2_ConvertToResource (Some shortArn) svc rgn
  else if String.eqb v "ecs"
       then awsECS_ConvertToResource (Some shortArn) svc rgn
  else awsGeneric_ConverToResource (Some shortArn) svc rgn.

(** ** The pagination loop of [main] *)

(** The request and response of the tagging API's [GetResources], with the
    fields that [main] writes and reads. *)
Record GetResourcesInput : Type := {
  ResourcesPerPage : option Z;
  PaginationToken : option string
}.

Record ResourceTagMapping : Type := {
  ResourceARN : option string
}.

Record GetResourcesOutput : Type := {
  NextPaginationToken : option string;
  ResourceTagMappingList : list ResourceTagMapping
}.

Section Driver.

(** The tagging service as the client [r] reaches it: a state and the effect
    of one [r.GetResources] call on it.  A call answers with an output, or
    with an error (then the output pointer is nil). *)
Variable Service_state : Type.
Variable GetResources :
  Service_state -> GetResourcesInput ->
  Service_state * (GetResourcesOutput + string).

(** What the loop acts on outside its own variables: the service, the
    requests issued so far (oldest first) and the lines printed so far. *)
Record World : Type := {
  service : Service_state;
  requests : list GetResourcesInput;
  stdout : list string
}.

(** [out, err = r.GetResources(ctx, in); if err != nil { fmt.Println(err) }] *)
Definition call (w : World) (input : GetResourcesInput)
  : World * option GetResourcesOutput :=
  let (s', answer) := GetResources (service w) input in
  match answer with
  | inl out =>
      ({| service := s'; requests := requests w ++ [input];
          stdout := stdout w |}, Some out)
  | inr err =>
      ({| service := s'; requests := requests w ++ [input];
          stdout := stdout w ++ [err] |}, None)
  end.

(** The inner [for _, resource := range out.ResourceTagMappingList]. *)
Fixpoint collect (region : string) (l : list ResourceTagMapping)
  (resources : list SingleResource) : outcome (list SingleResource) :=
  match l with
  | [] => Returns resources
  | resource :: rest =>
      svc <- ServiceNameFromARN (ResourceARN resource) ;;
      r <- ConvertArnToSingleResource
             (ResourceARN resource) svc (Some region) ;;
      collect region rest (resources ++ [r])
  end.

(** One pass through the body of the outer [for]; the boolean says whether
    the pass ended in [break]. *)
Definition iteration (region : string) (w : World) (paginationToken : string)
  (resources : list SingleResource)
  : outcome (World * string * list SingleResource * bool) :=
  let '(w1, input) :=
    if Nat.eqb (String.length paginationToken) 0 then
      let input :=
        {| ResourcesPerPage := Some 50%Z; PaginationToken := None |} in
      (fst (call w input), input)
    else
      (w, {| ResourcesPerPage := Some 50%Z;
             PaginationToken := Some paginationToken |}) in
  let (w2, out) := call w1 input in
  match out with
  | None => Panics NilPointerDereference
  | Some o =>
      resources' <- collect region (ResourceTagMappingList o) resources ;;
      token <- deref (NextPaginationToken o) ;;
      Returns (w2, token, resources', String.eqb token "")
  end.

(** The outer [for], run for at most [fuel] passes: [None] when the passes
    are used up before a [break]. *)
Fixpoint loop (fuel : nat) (region : string) (w : World)
  (paginationToken : string) (resources : list SingleResource)
  : option (outcome (World * list SingleResource)) :=
  match fuel with
  | O => None
  | S fuel' =>
      match iteration region w paginationToken resources with
      | Returns (w', token, resources', stop) =>
          if stop then Some (Returns (w', resources'))
          else loop fuel' region w' token resources'
      | Panics e => Some (Panics e)
      | Fails k => Some (Fails k)
      end
  end.

(** [main], from the command line and the service's initial state to the
    final world and the table handed to the writer.  Loading the SDK
    configuration and building the client are outside the model: the client
    is the service it talks to. *)
Definition main (fuel : nat) (args : list string) (s : Service_state)
  : option (outcome (World * Table)) :=
  match index args 1 with
  | Returns region =>
      let w := {| service := s; requests := []; stdout := [] |} in
      match loop fuel region w "" [] with
      | Some (Returns (w', resources)) =>
          Some (Returns (w', PrettyPrintResources resources))
      | Some (Panics e) => Some (Panics e)
      | Some (Fails k) => Some (Fails k)
      | None => None
      end
  | Panics e => Some (Panics e)
  | Fails k => Some (Fails k)
  end.

End Driver.

Arguments World : clear implicits.

(** ** Vocabulary of the statements *)

(** [has_byte a s]: the byte [a] occurs in [s]. *)
Fixpoint has_byte (a : ascii) (s : string) : bool :=
  match s with
  | EmptyString => false
  | String c s' => Ascii.eqb a c || has_byte a s'
  end.

(** A segment between colons holds no colon itself. *)
Definition colon_free (s : string) : Prop := has_byte ":" s = false.

(** The part of [s] before its first colon (all of [s] when it has none). *)
Fixpoint before_first_colon (s : string) : string :=
  match s with
  | EmptyString => EmptyString
  | String c s' =>
      if Ascii.eqb ":" c then EmptyString else String c (before_first_colon s')
  end.

(** No occurrence of [old] in [a ++ s] starts inside [a]. *)
Fixpoint none_starts_inside (old a s : string) : bool :=
  match a with
  | EmptyString => true
  | String _ a' =>
      negb (strings.HasPrefix (a ++ s) old) && none_starts_inside old a' s
  end.

(** [arn:aws:<svc>:<region>:<acct>:<resource>] *)
Definition aws_arn (svc region acct resource : string) : string :=
  "arn:aws:" ++ svc ++ ":" ++ region ++ ":" ++ acct ++ ":" ++ resource.

(** The row that the printer builds for one record. *)
Definition row_of (r : SingleResource) : list string :=
  [DerefNilPointerStrings (Region r); DerefNilPointerStrings (Service r);
   DerefNilPointerStrings (Product r); DerefNilPointerStrings (ID r)].

(** A record whose region and service pointers are not nil. *)
Definition populated (r : SingleResource) : Prop :=
  Region r <> None /\ Service r <> None.

(** Two records equal field by field. *)
Definition same_fields (r1 r2 : SingleResource) : Prop :=
  Region r1 = Region r2 /\ Service r1 = Service r2 /\ Product r1 = Product r2 /\
  Details r1 = Details r2 /\ ID r1 = ID r2 /\ ARN r1 = ARN r2.

(** What the loop does with one entry of a page. *)
Definition classify (region : string) (m : ResourceTagMapping)
  : outcome SingleResource :=
  svc <- ServiceNameFromARN (ResourceARN m) ;;
  ConvertArnToSingleResource (ResourceARN m) svc (Some region).

(** The request built when the token is empty. *)
Definition first_request : GetResourcesInput :=
  {| ResourcesPerPage := Some 50%Z; PaginationToken := None |}.

(** How often the byte [a] occurs in [s]. *)
Fixpoint count_byte (a : ascii) (s : string) : nat :=
  match s with
  | EmptyString => 0
  | String c s' => (if Ascii.eqb a c then 1 else 0) + count_byte a s'
  end.

(** [s] with every colon turned into a slash. *)
Fixpoint colons_to_slashes (s : string) : string :=
  match s with
  | EmptyString => EmptyString
  | String c s' =>
      String (if Ascii.eqb ":" c then "/"%char else c) (colons_to_slashes s')
  end.

(** The part of [s] before the first [a] (all of [s] when it has none), and
    the part behind it (empty when it has none). *)
Fixpoint upto_byte (a : ascii) (s : string) : string :=
  match s with
  | EmptyString => EmptyString
  | String c s' => if Ascii.eqb a c then EmptyString else String c (upto_byte a s')
  end.

Fixpoint behind_byte (a : ascii) (s : string) : string :=
  match s with
  | EmptyString => EmptyString
  | String c s' => if Ascii.eqb a c then s' else behind_byte a s'
  end.

(** The request built when the token is not empty. *)
Definition token_request (token : string) : GetResourcesInput :=
  {| ResourcesPerPage := Some 50%Z; PaginationToken := Some token |}.

(** The request whose answer a pass reads, and the state in which the service
    receives it: with an empty token one call has already been made. *)
Definition page_request (token : string) : GetResourcesInput :=
  if Nat.eqb (String.length token) 0 then first_request
  else token_request token.

Definition service_before_page (Service_state : Type)
  (GetResources : Service_state -> GetResourcesInput ->
                  Service_state * (GetResourcesOutput + string))
  (s : Service_state) (token : string) : Service_state :=
  if Nat.eqb (String.length token) 0 then fst (GetResources s first_request)
  else s.

(** The world in which a pass makes the call whose answer it reads. *)
Definition world_before_page (Service_state : Type)
  (GetResources : Service_state -> GetResourcesInput ->
                  Service_state * (GetResourcesOutput + string))
  (w : World Service_state) (token : string) : World Service_state :=
  if Nat.eqb (String.length token) 0
  then fst (call GetResources w first_request) else w.

(** An entry of a page that the loop can turn into a record. *)
Definition classifiable (region : string) (m : ResourceTagMapping) : Prop :=
  exists r, classify region m = Returns r.

(** ** Two services to run the loop against *)

Definition mapping (arn : string) : ResourceTagMapping :=
  {| ResourceARN := Some arn |}.

Definition page_1 : list ResourceTagMapping :=
  [mapping "arn:aws:ec2:eu-west-1:123456789012:instance/i-0123abcd";
   mapping "arn:aws:s3:::my-bucket"].

Definition page_2 : list ResourceTagMapping :=
  [mapping "arn:aws:ecs:eu-west-1:123456789012:cluster/prod"].

Definition page_3 : list ResourceTagMapping :=
  [mapping "arn:aws:rds:eu-west-1:123456789012:db:orders"].

Definition answer (token : string) (l : list ResourceTagMapping)
  : GetResourcesOutput + string :=
  inl {| NextPaginationToken := Some token; ResourceTagMappingList := l |}.

(** A service that, like the tagging API, chooses the page by the token of the
    request: no token gives the first page. *)
Definition token_service (s : unit) (input : GetResourcesInput)
  : unit * (GetResourcesOutput + string) :=
  match PaginationToken input with
  | None => (s, answer "t1" page_1)
  | Some t =>
      if String.eqb t "t1" then (s, answer "t2" page_2)
      else if String.eqb t "t2" then (s, answer "" page_3)
      else (s, inr "InvalidParameterException: PaginationToken")
  end.

(** A scripted service that hands out its remaining answers one per call,
    whatever the request says. *)
Definition scripted_service (s : list (GetResourcesOutput + string))
  (input : GetResourcesInput)
  : list (GetResourcesOutput + string) * (GetResourcesOutput + string) :=
  match s with
  | a :: rest => (rest, a)
  | [] => ([], inr "no more answers")
  end.

Definition three_pages : list (GetResourcesOutput + string) :=
  [answer "t1" page_1; answer "t2" page_2; answer "" page_3].

(** A service that never runs out of pages. *)
Definition endless_service (s : unit) (input : GetResourcesInput)
  : unit * (GetResourcesOutput + string) :=
  (s, answer "more" page_2).

(** The records of a page, classified one by one as the loop would. *)
Definition records_of (region : string) (l : list ResourceTagMapping)
  : outcome (list SingleResource) :=
  collect region l [].

(** ** Facts about the string functions *)

Section StringFacts.

Import strings.

Lemma HasPrefix_one_byte (a c : ascii) (s : string) :
  HasPrefix (String c s) (String a EmptyString) = Ascii.eqb a c.
Proof. simpl. apply andb_true_r. Qed.

Lemma Split_nil (a : ascii) :
  Split EmptyString (String a EmptyString) = [EmptyString].
Proof. reflexivity. Qed.

Lemma Split_cons (a c : ascii) (s : string) :
  Split (String c s) (String a EmptyString) =
  if Ascii.eqb a c then EmptyString :: Split s (String a EmptyString)
  else match Split s (String a EmptyString) with
       | piece :: rest => String c piece :: rest
       | [] => [String c EmptyString]
       end.
Proof.
  unfold Split. cbn [split_from].
  rewrite HasPrefix_one_byte. reflexivity.
Qed.

Lemma Split_not_nil (a : ascii) (s : string) :
  Split s (String a EmptyString) <> [].
Proof.
  destruct s as [|c s].
  - discriminate.
  - rewrite Split_cons. destruct (Ascii.eqb a c); [discriminate|].
    destruct (Split s (String a EmptyString)); discriminate.
Qed.

Lemma Split_length_pos (a : ascii) (s : string) :
  1 <= List.length (Split s (String a EmptyString)).
Proof.
  pose proof (Split_not_nil a s) as H.
  destruct (Split s (String a EmptyString)); [congruence | simpl; lia].
Qed.

(** A string without the separator is one segment. *)
Lemma Split_no_sep (a : ascii) (s : string) :
  has_byte a s = false -> Split s (String a EmptyString) = [s].
Proof.
  induction s as [|c s IH]; intros H.
  - reflexivity.
  - simpl in H. apply orb_false_iff in H. destruct H as [Hc Hs].
    rewrite Split_cons, Hc, (IH Hs). reflexivity.
Qed.

(** The first segment ends at the first separator. *)
Lemma Split_segment (a : ascii) (x s : string) :
  has_byte a x = false ->
  Split (x ++ String a s) (String a EmptyString) =
  x :: Split s (String a EmptyString).
Proof.
  induction x as [|c x IH]; intros H.
  - cbn [append]. rewrite Split_cons, Ascii.eqb_refl. reflexivity.
  - simpl in H. apply orb_false_iff in H. destruct H as [Hc Hx].
    cbn [append]. rewrite Split_cons, Hc, (IH Hx). reflexivity.
Qed.

Lemma Split_before_first_colon (s : string) :
  nth_error (Split s ":") 0 = Some (before_first_colon s).
Proof.
  induction s as [|c s IH].
  - reflexivity.
  - rewrite Split_cons. cbn [before_first_colon].
    destruct (Ascii.eqb ":" c); [reflexivity|].
    destruct (Split s ":") as [|piece rest]; [discriminate|].
    simpl in IH. injection IH as ->. reflexivity.
Qed.

(** Without an occurrence of [old] there is nothing to replace. *)
Lemma replace_from_absent (old new s : string) :
  Contains s old = false -> replace_from old new 0 s = s.
Proof.
  induction s as [|c s IH]; intros H.
  - reflexivity.
  - cbn [Contains] in H. apply orb_false_iff in H. destruct H as [Hp Hs].
    cbn [replace_from]. rewrite Hp, (IH Hs). reflexivity.
Qed.

Lemma Replace_absent (old new s : string) :
  Contains s old = false -> Replace s old new = s.
Proof.
  intros H. unfold Replace. destruct old; [reflexivity|].
  now apply replace_from_absent.
Qed.

(** An occurrence of ["arn:aws:"] that starts inside a colon-free segment
    takes the last three bytes of the segment and continues with ["aws:"]. *)
Lemma arn_aws_inside_segment (x tail : string) :
  has_byte ":" x = false ->
  HasPrefix (x ++ String ":" tail) "arn:aws:" = true ->
  x = "arn" /\ HasPrefix tail "aws:" = true.
Proof.
  intros Hx H.
  destruct x as [|c0 [|c1 [|c2 [|c3 x]]]];
    cbn [append HasPrefix has_byte] in H, Hx;
    repeat match goal with
           | H : (_ && _)%bool = true |- _ =>
               apply andb_true_iff in H; destruct H
           | H : (_ || _)%bool = false |- _ =>
               apply orb_false_iff in H; destruct H
           | H : Ascii.eqb _ _ = true |- _ => apply Ascii.eqb_eq in H
           end;
    subst; try discriminate.
  split; [reflexivity|].
  destruct tail as [|t0 [|t1 [|t2 [|t3 tail]]]];
    cbn [HasPrefix] in *; try discriminate;
    repeat match goal with
           | H : (_ && _)%bool = true |- _ =>
               apply andb_true_iff in H; destruct H
           | H : Ascii.eqb _ _ = true |- _ => apply Ascii.eqb_eq in H
           end;
    subst; try discriminate; reflexivity.
Qed.

Lemma aws_region_segment (x tail : string) :
  has_byte ":" x = false ->
  HasPrefix (x ++ String ":" tail) "aws:" = true ->
  x = "aws".
Proof.
  intros Hx H.
  destruct x as [|c0 [|c1 [|c2 [|c3 x]]]];
    cbn [append HasPrefix has_byte] in H, Hx;
    repeat match goal with
           | H : (_ && _)%bool = true |- _ =>
               apply andb_true_iff in H; destruct H
           | H : (_ || _)%bool = false |- _ =>
               apply orb_false_iff in H; destruct H
           | H : Ascii.eqb _ _ = true |- _ => apply Ascii.eqb_eq in H
           end;
    subst; try discriminate.
  reflexivity.
Qed.

Lemma HasPrefix_app (x s : string) : HasPrefix (x ++ s) x = true.
Proof.
  induction x as [|c x IH]; [reflexivity|].
  cbn [append HasPrefix]. now rewrite Ascii.eqb_refl, IH.
Qed.

Lemma replace_from_skip (old new x s : string) :
  replace_from old new (String.length x) (x ++ s) = replace_from old new 0 s.
Proof.
  induction x as [|c x IH]; [reflexivity|].
  cbn [append String.length replace_from]. exact IH.
Qed.

(** An occurrence at the front is replaced and the scan goes on behind it. *)
Lemma replace_from_occurrence (a : ascii) (old new s : string) :
  replace_from (String a old) new 0 (String a old ++ s) =
  (new ++ replace_from (String a old) new 0 s)%string.
Proof.
  cbn [append replace_from].
  change (String a (old ++ s)%string) with (String a old ++ s)%string.
  rewrite HasPrefix_app.
  cbn [String.length]. rewrite Nat.sub_succ, Nat.sub_0_r.
  now rewrite replace_from_skip.
Qed.

(** The scan leaves a colon-free first segment and its colon in place,
    unless the segment ends in ["arn"] and ["aws:"] follows. *)
Lemma replace_from_segment (new x tail : string) :
  has_byte ":" x = false ->
  (forall p, x = (p ++ "arn")%string -> HasPrefix tail "aws:" = false) ->
  replace_from "arn:aws:" new 0 (x ++ String ":" tail) =
  (x ++ String ":" (replace_from "arn:aws:" new 0 tail))%string.
Proof.
  induction x as [|c x IH]; intros Hx Hend.
  - reflexivity.
  - destruct (HasPrefix (String c x ++ String ":" tail) "arn:aws:") eqn:E.
    + destruct (arn_aws_inside_segment _ _ Hx E) as [Harn Haws].
      rewrite (Hend EmptyString Harn) in Haws. discriminate.
    + cbn [append] in E |- *. cbn [replace_from]. rewrite E. f_equal.
      cbn [has_byte] in Hx. apply orb_false_iff in Hx.
      apply IH; [tauto|].
      intros p Hp. apply (Hend (String c p)). now rewrite Hp.
Qed.

(** The scan copies what stands before the leftmost occurrence. *)
Lemma replace_from_leftmost (c : ascii) (old new a s : string) :
  none_starts_inside (String c old) a (String c old ++ s) = true ->
  replace_from (String c old) new 0 (a ++ String c old ++ s) =
  (a ++ new ++ replace_from (String c old) new 0 s)%string.
Proof.
  induction a as [|b a IH]; intros H.
  - apply replace_from_occurrence.
  - cbn [none_starts_inside] in H. apply andb_true_iff in H.
    destruct H as [Hb Ha]. apply negb_true_iff in Hb.
    cbn [append] in Hb |- *. cbn [replace_from]. rewrite Hb. f_equal.
    exact (IH Ha).
Qed.

End StringFacts.

(** ** The ARN decomposer *)

Lemma aws_arn_segments (svc region acct resource : string) :
  colon_free svc -> colon_free region -> colon_free acct ->
  strings.Split (aws_arn svc region acct resource) ":" =
  "arn" :: "aws" :: svc :: region :: acct :: strings.Split resource ":".
Proof.
  intros Hs Hr Ha.
  change (aws_arn svc region acct resource)
    with ("arn" ++ String ":" ("aws" ++ String ":" (svc ++ String ":"
            (region ++ String ":" (acct ++ String ":" resource)))))%string.
  now rewrite !Split_segment.
Qed.

Lemma ServiceNameFromARN_aws_arn (svc region acct resource : string) :
  colon_free svc -> colon_free region ->
  (region = "aws" -> forall p, svc <> (p ++ "arn")%string) ->
  ServiceNameFromARN (Some (aws_arn svc region acct resource)) =
  Returns (Some svc).
Proof.
  intros Hs Hr Hend.
  unfold ServiceNameFromARN, deref, bind, strings.Replace.
  change (aws_arn svc region acct resource)
    with ("arn:aws:" ++ (svc ++ String ":"
            (region ++ String ":" (acct ++ String ":" resource))))%string.
  rewrite replace_from_occurrence, replace_from_segment; trivial.
  - cbn [append]. rewrite Split_segment by exact Hs. reflexivity.
  - intros p Hp.
    destruct (strings.HasPrefix
                (region ++ String ":" (acct ++ String ":" resource)) "aws:")
      eqn:E; [|reflexivity].
    apply aws_region_segment in E; [|exact Hr].
    now destruct (Hend E p).
Qed.

(** C1, as amended: for an ARN arn:aws:<svc>:<region>:<acct>:<resource> the
    segments are "arn", "aws", <svc>, <region>, <acct> and those of the
    resource part; [ShortArn] drops the first FIVE of them (not six) and joins
    the segments from index 5 onward with "/", so the short ARN is the resource
    part with its colons turned into slashes; [ServiceNameFromARN] yields <svc>
    unless <region> is "aws" and <svc> ends in "arn". *)
Theorem C1_arn_decomposer_drops_five_segments
  (svc region acct resource : string) :
  colon_free svc -> colon_free region -> colon_free acct ->
  (region = "aws" -> forall p, svc <> (p ++ "arn")%string) ->
  6 <= List.length (strings.Split (aws_arn svc region acct resource) ":") /\
  ServiceNameFromARN (Some (aws_arn svc region acct resource)) =
    Returns (Some svc) /\
  ShortArn (Some (aws_arn svc region acct resource)) =
    Returns (strings.Join
               (skipn 5 (strings.Split (aws_arn svc region acct resource) ":"))
               "/") /\
  skipn 5 (strings.Split (aws_arn svc region acct resource) ":") =
    strings.Split resource ":".
Proof.
  intros Hs Hr Ha Hend.
  pose proof (Split_length_pos ":" resource) as Hlen.
  split; [|split; [|split]].
  - rewrite aws_arn_segments by assumption. cbn [List.length]. lia.
  - now apply ServiceNameFromARN_aws_arn.
  - unfold ShortArn, deref, bind, slice_from.
    rewrite aws_arn_segments by assumption. reflexivity.
  - rewrite aws_arn_segments by assumption. reflexivity.
Qed.

Lemma C1_arn_decomposer_witness :
  ServiceNameFromARN
    (Some "arn:aws:rds:eu-west-1:123456789012:db:orders") =
    Returns (Some "rds") /\
  ShortArn (Some "arn:aws:rds:eu-west-1:123456789012:db:orders") =
    Returns "db/orders".
Proof.
  destruct (@C1_arn_decomposer_drops_five_segments
              "rds" "eu-west-1" "123456789012" "db:orders")
    as (_ & Hsvc & Hshort & _);
    [reflexivity | reflexivity | reflexivity | discriminate |].
  split; [exact Hsvc | exact Hshort].
Defined.

(** C1 as stated fails: with the first six segments removed the short ARN of
    an EC2 instance would be empty, while the code returns the resource part;
    and the service of an ARN whose region is "aws" and whose service ends in
    "arn" is not the third segment. *)
Lemma C1_six_segments_counterexample :
  strings.Split "arn:aws:ec2:us-east-1:123456789012:instance/i-0123abcd" ":" =
    ["arn"; "aws"; "ec2"; "us-east-1"; "123456789012"; "instance/i-0123abcd"] /\
  ShortArn (Some "arn:aws:ec2:us-east-1:123456789012:instance/i-0123abcd") =
    Returns "instance/i-0123abcd" /\
  ShortArn (Some "arn:aws:ec2:us-east-1:123456789012:instance/i-0123abcd") <>
    Returns
      (strings.Join
         (skipn 6
            (strings.Split
               "arn:aws:ec2:us-east-1:123456789012:instance/i-0123abcd" ":"))
         "/") /\
  strings.Split "arn:aws:barn:aws:123456789012:x" ":" =
    ["arn"; "aws"; "barn"; "aws"; "123456789012"; "x"] /\
  ServiceNameFromARN (Some "arn:aws:barn:aws:123456789012:x") =
    Returns (Some "b123456789012").
Proof.
  repeat split; try reflexivity. discriminate.
Qed.

(** ** Failures: panics only *)

Section NoErrorKind.

Variable k : ErrorKind.

Lemma bind_no_error_kind (A B : Type) (m : outcome A) (f : A -> outcome B) :
  m <> Fails k -> (forall a, f a <> Fails k) -> bind m f <> Fails k.
Proof.
  destruct m; simpl; intros H1 H2; [apply H2 | discriminate |].
  intros E. apply H1. now injection E as ->.
Qed.

Lemma deref_no_error_kind (p : option string) : deref p <> Fails k.
Proof. destruct p; discriminate. Qed.

Lemma index_no_error_kind (a : list string) (i : nat) : index a i <> Fails k.
Proof. unfold index. destruct (nth_error a i); discriminate. Qed.

Lemma slice_from_no_error_kind (a : list string) (low : nat) :
  slice_from a low <> Fails k.
Proof. unfold slice_from. destruct (Nat.leb _ _); discriminate. Qed.

Lemma ShortArn_no_error_kind (arn : option string) : ShortArn arn <> Fails k.
Proof.
  unfold ShortArn.
  apply bind_no_error_kind; [apply deref_no_error_kind | intros a].
  apply bind_no_error_kind; [apply slice_from_no_error_kind | discriminate].
Qed.

Lemma ServiceNameFromARN_no_error_kind (arn : option string) :
  ServiceNameFromARN arn <> Fails k.
Proof.
  unfold ServiceNameFromARN.
  apply bind_no_error_kind; [apply deref_no_error_kind | intros a].
  apply bind_no_error_kind; [apply index_no_error_kind | discriminate].
Qed.

Lemma awsEC2_no_error_kind (shortArn svc rgn : option string) :
  awsEC2_ConvertToResource shortArn svc rgn <> Fails k.
Proof.
  unfold awsEC2_ConvertToResource.
  apply bind_no_error_kind; [apply deref_no_error_kind | intros a].
  apply bind_no_error_kind; [apply index_no_error_kind | intros s0].
  apply bind_no_error_kind; [apply index_no_error_kind | discriminate].
Qed.

Lemma awsECS_no_error_kind (shortArn svc rgn : option string) :
  awsECS_ConvertToResource shortArn svc rgn <> Fails k.
Proof.
  unfold awsECS_ConvertToResource.
  apply bind_no_error_kind; [apply deref_no_error_kind | intros a].
  apply bind_no_error_kind; [apply index_no_error_kind | intros s0].
  apply bind_no_error_kind; [apply index_no_error_kind | discriminate].
Qed.

(** Whatever goes wrong in a classification, it is never reported as one of
    the design document's error kinds. *)
Lemma classification_reports_no_error_kind (arn svc rgn : option string) :
  ConvertArnToSingleResource arn svc rgn <> Fails k.
Proof.
  unfold ConvertArnToSingleResource.
  apply bind_no_error_kind; [apply ShortArn_no_error_kind | intros sa].
  apply bind_no_error_kind; [apply deref_no_error_kind | intros v].
  destruct (String.eqb v "ec2"); [apply awsEC2_no_error_kind|].
  destruct (String.eqb v "ecs"); [apply awsECS_no_error_kind|].
  discriminate.
Qed.

End NoErrorKind.

(** C3, as amended: an ARN with fewer than six colon-delimited segments is
    not rejected with an InvalidArnFormat error.  With fewer than five
    segments [ShortArn], and so the classification, stops with Go's
    slice-bounds run-time panic and no record is returned; with exactly five
    segments nothing fails, the short ARN is the empty string, and the generic
    strategy returns a record for it. *)
Theorem C3_short_arn_under_six_segments (arn : string) :
  List.length (strings.Split arn ":") < 6 ->
  (List.length (strings.Split arn ":") < 5 /\
   ShortArn (Some arn) =
     Panics (SliceBoundsOutOfRange 5 (List.length (strings.Split arn ":"))) /\
   forall svc rgn,
     ConvertArnToSingleResource (Some arn) svc rgn =
       Panics (SliceBoundsOutOfRange 5 (List.length (strings.Split arn ":"))))
  \/
  (List.length (strings.Split arn ":") = 5 /\
   ShortArn (Some arn) = Returns "" /\
   forall v rgn, v <> "ec2" -> v <> "ecs" ->
     ConvertArnToSingleResource (Some arn) (Some v) rgn =
       Returns {| Region := rgn; Service := Some v; Product := None;
                  Details := None; ID := Some ""; ARN := Some "" |}).
Proof.
  intros Hlt.
  assert (Hshort :
    List.length (strings.Split arn ":") < 5 ->
    ShortArn (Some arn) =
      Panics (SliceBoundsOutOfRange 5 (List.length (strings.Split arn ":")))).
  { intros H. unfold ShortArn, deref, bind, slice_from.
    destruct (Nat.leb_spec 5 (List.length (strings.Split arn ":")));
      [lia | reflexivity]. }
  destruct (Nat.lt_ge_cases (List.length (strings.Split arn ":")) 5) as [H|H].
  - left. split; [exact H|]. split; [now apply Hshort|].
    intros svc rgn. unfold ConvertArnToSingleResource.
    rewrite (Hshort H). reflexivity.
  - right. assert (H5 : List.length (strings.Split arn ":") = 5) by lia.
    assert (Hempty : ShortArn (Some arn) = Returns "").
    { unfold ShortArn, deref, bind, slice_from.
      destruct (strings.Split arn ":") as [|a [|b [|c [|d [|e [|f l]]]]]];
        try discriminate H5. reflexivity. }
    split; [exact H5|]. split; [exact Hempty|].
    intros v rgn Hec2 Hecs. unfold ConvertArnToSingleResource.
    rewrite Hempty. cbn [bind deref].
    apply String.eqb_neq in Hec2, Hecs. now rewrite Hec2, Hecs.
Qed.

Lemma C3_short_arn_witness :
  ShortArn (Some "arn:aws:s3") = Panics (SliceBoundsOutOfRange 5 3).
Proof.
  destruct (@C3_short_arn_under_six_segments "arn:aws:s3")
    as [(_ & H & _) | (H & _)]; [simpl; lia | exact H | discriminate H].
Defined.

(** C3 as stated fails: a five-segment ARN is classified and a record comes
    back, and a three-segment ARN ends in the run-time's slice-bounds panic,
    which is not an InvalidArnFormat error. *)
Lemma C3_invalid_arn_counterexample :
  List.length (strings.Split "arn:aws:iam::123456789012" ":") < 6 /\
  ConvertArnToSingleResource
    (Some "arn:aws:iam::123456789012") (Some "iam") (Some "us-east-1") =
    Returns {| Region := Some "us-east-1"; Service := Some "iam";
               Product := None; Details := None;
               ID := Some ""; ARN := Some "" |} /\
  List.length (strings.Split "arn:aws:s3" ":") < 6 /\
  ConvertArnToSingleResource
    (Some "arn:aws:s3") (Some "s3") (Some "us-east-1") =
    Panics (SliceBoundsOutOfRange 5 3) /\
  ConvertArnToSingleResource
    (Some "arn:aws:s3") (Some "s3") (Some "us-east-1") <>
    Fails InvalidArnFormat.
Proof.
  repeat split; try reflexivity; try (simpl; lia). discriminate.
Qed.

(** ** The classification strategies *)

Lemma one_segment (sa : string) :
  List.length (strings.Split sa "/") < 2 ->
  exists s0, strings.Split sa "/" = [s0].
Proof.
  intros H. pose proof (Split_length_pos "/" sa) as Hpos.
  destruct (strings.Split sa "/") as [|s0 [|s1 l]]; simpl in *;
    [lia | now exists s0 | lia].
Qed.

(** C4, as amended: for a short ARN that has fewer than two "/"-separated
    segments the ec2 strategy and the ecs strategy produce no record; each
    stops with Go's index-out-of-range run-time panic (index 1 of a slice of
    length 1).  The code has no MalformedResourcePath error. *)
Theorem C4_single_segment_path_panics (sa : string) (svc rgn : option string) :
  List.length (strings.Split sa "/") < 2 ->
  awsEC2_ConvertToResource (Some sa) svc rgn = Panics (IndexOutOfRange 1 1) /\
  awsECS_ConvertToResource (Some sa) svc rgn = Panics (IndexOutOfRange 1 1).
Proof.
  intros H. destruct (one_segment sa H) as [s0 Hs0].
  unfold awsEC2_ConvertToResource, awsECS_ConvertToResource, deref, bind.
  rewrite Hs0. split; reflexivity.
Qed.

Lemma C4_single_segment_witness :
  awsEC2_ConvertToResource (Some "my-bucket") (Some "ec2") (Some "eu-west-1") =
    Panics (IndexOutOfRange 1 1) /\
  awsECS_ConvertToResource (Some "my-bucket") (Some "ec2") (Some "eu-west-1") =
    Panics (IndexOutOfRange 1 1).
Proof.
  apply (@C4_single_segment_path_panics "my-bucket"). simpl. lia.
Defined.

(** C4 as stated fails: on the short ARN "instance" both strategies end in the
    run-time's index-out-of-range panic, which is not a MalformedResourcePath
    error. *)
Lemma C4_malformed_path_counterexample :
  List.length (strings.Split "instance" "/") < 2 /\
  awsEC2_ConvertToResource (Some "instance") (Some "ec2") (Some "us-east-1") =
    Panics (IndexOutOfRange 1 1) /\
  awsEC2_ConvertToResource (Some "instance") (Some "ec2") (Some "us-east-1") <>
    Fails MalformedResourcePath /\
  awsECS_ConvertToResource (Some "instance") (Some "ecs") (Some "us-east-1") =
    Panics (IndexOutOfRange 1 1) /\
  awsECS_ConvertToResource (Some "instance") (Some "ecs") (Some "us-east-1") <>
    Fails MalformedResourcePath.
Proof.
  repeat split; try reflexivity; try discriminate. simpl. lia.
Qed.

(** C5: the ec2 strategy turns the short ARN "instance/i-0123abcd" into a
    record with product "instance" and identifier "i-0123abcd"; and for every
    short ARN with at least two "/"-separated segments the ec2 and the ecs
    strategy both return a record whose product is the first segment and whose
    identifier is the second. *)
Theorem C5_product_and_identifier :
  awsEC2_ConvertToResource
    (Some "instance/i-0123abcd") (Some "ec2") (Some "us-east-1") =
    Returns {| Region := Some "us-east-1"; Service := Some "ec2";
               Product := Some "instance"; Details := None;
               ID := Some "i-0123abcd"; ARN := Some "instance/i-0123abcd" |} /\
  forall (sa : string) (svc rgn : option string),
    2 <= List.length (strings.Split sa "/") ->
    exists r,
      awsEC2_ConvertToResource (Some sa) svc rgn = Returns r /\
      awsECS_ConvertToResource (Some sa) svc rgn = Returns r /\
      Product r = nth_error (strings.Split sa "/") 0 /\
      ID r = nth_error (strings.Split sa "/") 1 /\
      Product r <> None /\ ID r <> None /\
      Region r = rgn /\ Service r = svc /\ ARN r = Some sa.
Proof.
  split; [reflexivity|].
  intros sa svc rgn H.
  unfold awsEC2_ConvertToResource, awsECS_ConvertToResource, deref, bind, index.
  destruct (strings.Split sa "/") as [|s0 [|s1 l]]; simpl in H; try lia.
  eexists. cbn [nth_error].
  split; [reflexivity|]. split; [reflexivity|]. cbn.
  repeat split; discriminate.
Qed.

Lemma C5_product_and_identifier_witness :
  exists r,
    awsECS_ConvertToResource
      (Some "cluster/prod/extra") (Some "ecs") (Some "eu-west-1") = Returns r /\
    Product r = Some "cluster" /\ ID r = Some "prod".
Proof.
  destruct (proj2 C5_product_and_identifier
              "cluster/prod/extra" (Some "ecs") (Some "eu-west-1"))
    as (r & _ & Hecs & Hp & Hi & _); [simpl; lia|].
  exists r. split; [exact Hecs|]. split; [exact Hp | exact Hi].
Defined.

(** C6: for every service identifier other than "ec2" and "ecs" the
    classification is that of the generic strategy on the short ARN, and the
    generic strategy returns a record whose identifier is the whole short ARN
    and whose product is unset; service "s3" with the ARN of "my-bucket" gives
    product unset and identifier "my-bucket". *)
Theorem C6_generic_strategy (arn rgn : option string) (v : string) :
  v <> "ec2" -> v <> "ecs" ->
  ConvertArnToSingleResource arn (Some v) rgn =
    (shortArn <- ShortArn arn ;;
     awsGeneric_ConverToResource (Some shortArn) (Some v) rgn) /\
  (forall shortArn,
     awsGeneric_ConverToResource shortArn (Some v) rgn =
       Returns {| Region := rgn; Service := Some v; Product := None;
                  Details := None; ID := shortArn; ARN := shortArn |}) /\
  (forall shortArn, ShortArn arn = Returns shortArn ->
     ConvertArnToSingleResource arn (Some v) rgn =
       Returns {| Region := rgn; Service := Some v; Product := None;
                  Details := None; ID := Some shortArn;
                  ARN := Some shortArn |}) /\
  ConvertArnToSingleResource
    (Some "arn:aws:s3:::my-bucket") (Some "s3") (Some "us-east-1") =
    Returns {| Region := Some "us-east-1"; Service := Some "s3";
               Product := None; Details := None;
               ID := Some "my-bucket"; ARN := Some "my-bucket" |}.
Proof.
  intros Hec2 Hecs. apply String.eqb_neq in Hec2, Hecs.
  assert (Hdispatch :
    ConvertArnToSingleResource arn (Some v) rgn =
      (shortArn <- ShortArn arn ;;
       awsGeneric_ConverToResource (Some shortArn) (Some v) rgn)).
  { unfold ConvertArnToSingleResource. destruct (ShortArn arn); try reflexivity.
    cbn [bind deref]. now rewrite Hec2, Hecs. }
  split; [exact Hdispatch|]. split; [reflexivity|]. split; [|reflexivity].
  intros shortArn Hs. rewrite Hdispatch, Hs. reflexivity.
Qed.

Lemma C6_generic_strategy_witness :
  ConvertArnToSingleResource
    (Some "arn:aws:rds:eu-west-1:123456789012:db:orders")
    (Some "rds") (Some "eu-west-1") =
    Returns {| Region := Some "eu-west-1"; Service := Some "rds";
               Product := None; Details := None;
               ID := Some "db/orders"; ARN := Some "db/orders" |}.
Proof.
  destruct (@C6_generic_strategy
              (Some "arn:aws:rds:eu-west-1:123456789012:db:orders")
              (Some "eu-west-1") "rds")
    as (_ & _ & H & _); [discriminate | discriminate |].
  apply H. reflexivity.
Defined.

(** ** The printed table *)

Lemma rows_accumulate (resources : list SingleResource)
  (data : list (list string)) :
  fold_left
    (fun data r =>
       data ++ [[DerefNilPointerStrings (Region r);
                 DerefNilPointerStrings (Service r);
                 DerefNilPointerStrings (Product r);
                 DerefNilPointerStrings (ID r)]])
    resources data = data ++ map row_of resources.
Proof.
  revert data. induction resources as [|r resources IH]; intros data.
  - simpl. now rewrite app_nil_r.
  - cbn [fold_left map]. rewrite IH, <- app_assoc. reflexivity.
Qed.

(** C8: the table handed to the writer has the header Region, Service,
    Product, ID and exactly one row per collected record, in collection order;
    the row of a record holds its region, service, product and identifier, and
    an unset (nil) field is the empty string. *)
Theorem C8_one_row_per_record (resources : list SingleResource) :
  header (PrettyPrintResources resources) =
    ["Region"; "Service"; "Product"; "ID"] /\
  rows (PrettyPrintResources resources) =
    map (fun r => [DerefNilPointerStrings (Region r);
                   DerefNilPointerStrings (Service r);
                   DerefNilPointerStrings (Product r);
                   DerefNilPointerStrings (ID r)]) resources /\
  List.length (rows (PrettyPrintResources resources)) = List.length resources /\
  (forall i,
     nth_error (rows (PrettyPrintResources resources)) i =
     option_map row_of (nth_error resources i)) /\
  DerefNilPointerStrings None = "" /\
  (forall v, DerefNilPointerStrings (Some v) = v) /\
  (forall rgn svc details arn,
     rows (PrettyPrintResources
             [{| Region := rgn; Service := svc; Product := None;
                 Details := details; ID := None; ARN := arn |}]) =
     [[DerefNilPointerStrings rgn; DerefNilPointerStrings svc; ""; ""]]).
Proof.
  assert (Hrows : rows (PrettyPrintResources resources) = map row_of resources).
  { unfold PrettyPrintResources. cbn [rows]. now rewrite rows_accumulate. }
  split; [reflexivity|]. split; [exact Hrows|].
  split; [now rewrite Hrows, length_map|].
  split; [intros i; now rewrite Hrows, nth_error_map|].
  repeat split.
Qed.

(** ** Classification as a function of its arguments *)

(** The inner loop appends, entry by entry, the record of each entry to the
    records it was given. *)
Lemma collect_returns (region : string) (l : list ResourceTagMapping) :
  forall acc out,
    collect region l acc = Returns out ->
    exists new,
      out = acc ++ new /\
      Forall2 (fun m r => classify region m = Returns r) l new.
Proof.
  induction l as [|m l IH]; intros acc out H.
  - injection H as <-. exists []. split; [now rewrite app_nil_r | constructor].
  - cbn [collect] in H.
    destruct (ServiceNameFromARN (ResourceARN m)) as [svc| |] eqn:Es;
      try discriminate H.
    cbn [bind] in H.
    destruct (ConvertArnToSingleResource (ResourceARN m) svc (Some region))
      as [r| |] eqn:Er; try discriminate H.
    cbn [bind] in H. destruct (IH _ _ H) as (new & -> & Hnew).
    exists (r :: new). split; [now rewrite <- app_assoc|].
    constructor; [|exact Hnew].
    unfold classify. rewrite Es. exact Er.
Qed.

Lemma Forall2_nth_error (A B : Type) (R : A -> B -> Prop)
  (l : list A) (l' : list B) :
  Forall2 R l l' ->
  forall i a b, nth_error l i = Some a -> nth_error l' i = Some b -> R a b.
Proof.
  induction 1 as [|x y l l' Hxy _ IH]; intros [|i] a b Ha Hb;
    try discriminate.
  - injection Ha as <-. injection Hb as <-. exact Hxy.
  - exact (IH i a b Ha Hb).
Qed.

(** C9: classifying the same ARN twice, with the same service identifier and
    region, gives records that are equal field by field; and when a page lists
    the same entry at two places, the two records that the loop appends for it
    are equal field by field, whatever was collected before. *)
Theorem C9_classification_deterministic :
  (forall (arn svc rgn : option string) (r1 r2 : SingleResource),
     ConvertArnToSingleResource arn svc rgn = Returns r1 ->
     ConvertArnToSingleResource arn svc rgn = Returns r2 ->
     same_fields r1 r2) /\
  (forall region l acc out i j m r1 r2,
     collect region l acc = Returns out ->
     nth_error l i = Some m -> nth_error l j = Some m ->
     nth_error out (List.length acc + i) = Some r1 ->
     nth_error out (List.length acc + j) = Some r2 ->
     same_fields r1 r2).
Proof.
  assert (Hrefl : forall r, same_fields r r) by (intros r; repeat split).
  split.
  - intros arn svc rgn r1 r2 H1 H2. rewrite H1 in H2. injection H2 as <-.
    apply Hrefl.
  - intros region l acc out i j m r1 r2 H Hi Hj H1 H2.
    destruct (collect_returns _ _ _ H) as (new & -> & Hnew).
    rewrite nth_error_app2 in H1, H2 by lia.
    replace (List.length acc + i - List.length acc) with i in H1 by lia.
    replace (List.length acc + j - List.length acc) with j in H2 by lia.
    pose proof (Forall2_nth_error Hnew _ Hi H1) as E1.
    pose proof (Forall2_nth_error Hnew _ Hj H2) as E2.
    cbv beta in E1, E2. rewrite E1 in E2. injection E2 as <-. apply Hrefl.
Qed.

Lemma C9_classification_witness :
  same_fields
    {| Region := Some "eu-west-1"; Service := Some "ecs";
       Product := Some "cluster"; Details := None;
       ID := Some "prod"; ARN := Some "cluster/prod" |}
    {| Region := Some "eu-west-1"; Service := Some "ecs";
       Product := Some "cluster"; Details := None;
       ID := Some "prod"; ARN := Some "cluster/prod" |}.
Proof.
  apply (proj1 C9_classification_deterministic
           (Some "arn:aws:ecs:eu-west-1:123456789012:cluster/prod")
           (Some "ecs") (Some "eu-west-1")); reflexivity.
Defined.

(** ** Service extraction without an "arn:aws:" prefix *)

Lemma ServiceNameFromARN_total (s : string) :
  ServiceNameFromARN (Some s) =
  Returns (Some (before_first_colon (strings.Replace s "arn:aws:" ""))).
Proof.
  unfold ServiceNameFromARN, deref, bind, index.
  now rewrite Split_before_first_colon.
Qed.

(** C10: [ServiceNameFromARN] checks no prefix.  It never fails on a string;
    it deletes the occurrences of "arn:aws:" wherever they are (the leftmost
    one wherever it starts, then those behind it) and returns what then stands
    before the first colon.  For a string that does not contain "arn:aws:"
    this is the part of the string itself before its first colon: "arn" for
    an ARN of the partition "aws-cn". *)
Theorem C10_service_name_without_prefix_check :
  (forall s, strings.Contains s "arn:aws:" = false ->
     ServiceNameFromARN (Some s) = Returns (Some (before_first_colon s))) /\
  (forall s, exists v, ServiceNameFromARN (Some s) = Returns (Some v)) /\
  (forall a s,
     none_starts_inside "arn:aws:" a ("arn:aws:" ++ s) = true ->
     strings.Replace (a ++ "arn:aws:" ++ s) "arn:aws:" "" =
     (a ++ strings.Replace s "arn:aws:" "")%string) /\
  ServiceNameFromARN
    (Some "arn:aws-cn:ec2:cn-north-1:123456789012:instance/i-0123abcd") =
    Returns (Some "arn") /\
  strings.Replace "s3:arn:aws:x:arn:aws:y" "arn:aws:" "" = "s3:x:y" /\
  ServiceNameFromARN (Some "arn:aws:arn:aws:sqs:eu-west-1:123456789012:q") =
    Returns (Some "sqs") /\
  ServiceNameFromARN (Some "no colon at all") =
    Returns (Some "no colon at all").
Proof.
  split.
  { intros s H. rewrite ServiceNameFromARN_total.
    now rewrite Replace_absent. }
  split.
  { intros s. eexists. apply ServiceNameFromARN_total. }
  split.
  { intros a s H. unfold strings.Replace.
    now rewrite replace_from_leftmost. }
  repeat split.
Qed.

Lemma C10_service_name_witness :
  ServiceNameFromARN (Some "aws:lambda:eu-west-1") = Returns (Some "aws").
Proof.
  apply (proj1 C10_service_name_without_prefix_check "aws:lambda:eu-west-1").
  reflexivity.
Defined.

(** ** Records built by the loop *)

Lemma strategy_fields (sa v rgn : string) (r : SingleResource) :
  awsGeneric_ConverToResource (Some sa) (Some v) (Some rgn) = Returns r \/
  awsEC2_ConvertToResource (Some sa) (Some v) (Some rgn) = Returns r \/
  awsECS_ConvertToResource (Some sa) (Some v) (Some rgn) = Returns r ->
  Region r = Some rgn /\ Service r = Some v.
Proof.
  unfold awsGeneric_ConverToResource, awsEC2_ConvertToResource,
    awsECS_ConvertToResource, deref, bind.
  intros [H | [H | H]];
    repeat match type of H with
           | context [index ?a ?i] => destruct (index a i); try discriminate H
           end;
    injection H as <-; split; reflexivity.
Qed.

Lemma ConvertArnToSingleResource_fields
  (arn : option string) (v rgn : string) (r : SingleResource) :
  ConvertArnToSingleResource arn (Some v) (Some rgn) = Returns r ->
  Region r = Some rgn /\ Service r = Some v.
Proof.
  unfold ConvertArnToSingleResource.
  destruct (ShortArn arn) as [sa| |]; try discriminate.
  cbn [bind deref]. intros H. apply (@strategy_fields sa).
  destruct (String.eqb v "ec2"); [tauto|].
  destruct (String.eqb v "ecs"); tauto.
Qed.

Lemma classify_fields (region : string) (m : ResourceTagMapping)
  (r : SingleResource) :
  classify region m = Returns r ->
  Region r = Some region /\ exists v, Service r = Some v.
Proof.
  unfold classify. destruct (ResourceARN m) as [s|]; [|discriminate].
  rewrite ServiceNameFromARN_total. cbn [bind]. intros H.
  apply ConvertArnToSingleResource_fields in H. destruct H as [Hr Hs].
  split; [exact Hr | eauto].
Qed.

Section LoopFacts.

Variable Service_state : Type.
Variable GetResources :
  Service_state -> GetResourcesInput ->
  Service_state * (GetResourcesOutput + string).

(** The records that one pass adds are those of the answer's entries, behind
    the records collected before, which stay as they were. *)
Lemma iteration_appends (region : string) (w : World Service_state)
  (token : string) (resources : list SingleResource) w' token' resources' stop :
  iteration GetResources region w token resources =
    Returns (w', token', resources', stop) ->
  exists l new,
    resources' = resources ++ new /\
    Forall2 (fun m r => classify region m = Returns r) l new.
Proof.
  unfold iteration.
  destruct (if Nat.eqb (String.length token) 0 then _ else _) as [w1 input].
  destruct (call GetResources w1 input) as [w2 [o|]]; [|discriminate].
  destruct (collect region (ResourceTagMappingList o) resources)
    as [rs| |] eqn:E; try discriminate.
  cbn [bind]. destruct (NextPaginationToken o); [|discriminate].
  cbn [bind deref]. intros H. injection H as <- <- <- <-.
  destruct (collect_returns _ _ _ E) as (new & -> & Hnew). eauto.
Qed.

Lemma loop_appends (fuel : nat) (region : string) :
  forall (w : World Service_state) token resources w' resources',
    loop GetResources fuel region w token resources =
      Some (Returns (w', resources')) ->
    exists l new,
      resources' = resources ++ new /\
      Forall2 (fun m r => classify region m = Returns r) l new.
Proof.
  induction fuel as [|fuel IH]; intros w token resources w' resources' H;
    [discriminate|].
  cbn [loop] in H.
  destruct (iteration GetResources region w token resources)
    as [[[[w1 token1] resources1] stop]| |] eqn:E; try discriminate.
  destruct (iteration_appends _ _ _ _ E) as (l1 & new1 & -> & H1).
  destruct stop.
  - injection H as <- <-. eauto.
  - destruct (IH _ _ _ _ _ H) as (l2 & new2 & -> & H2).
    exists (l1 ++ l2), (new1 ++ new2). split; [now rewrite app_assoc|].
    now apply Forall2_app.
Qed.

End LoopFacts.

Lemma classified_populated (region : string) (l : list ResourceTagMapping)
  (new : list SingleResource) :
  Forall2 (fun m r => classify region m = Returns r) l new ->
  Forall (fun r => Region r = Some region /\ populated r) new.
Proof.
  induction 1 as [|m r l new Hr _ IH]; constructor; [|exact IH].
  destruct (classify_fields _ _ Hr) as (Hreg & v & Hsvc).
  unfold populated. rewrite Hreg, Hsvc. repeat split; discriminate.
Qed.

(** C7: a record returned by any of the three strategies, called as the
    program calls them (with a service identifier and a region), has both as
    its service and region fields; so has a record returned by the
    classification.  In a run of the loop against any service the records
    collected earlier are left as they were, new records are appended behind
    them, and every record appended has the region of the run and a service;
    the table of a run that ends is printed from such records only. *)
Theorem C7_region_and_service_populated :
  (forall (sa v rgn : string) (r : SingleResource),
     awsGeneric_ConverToResource (Some sa) (Some v) (Some rgn) = Returns r \/
     awsEC2_ConvertToResource (Some sa) (Some v) (Some rgn) = Returns r \/
     awsECS_ConvertToResource (Some sa) (Some v) (Some rgn) = Returns r ->
     Region r = Some rgn /\ Service r = Some v /\ populated r) /\
  (forall (arn : option string) (v rgn : string) (r : SingleResource),
     ConvertArnToSingleResource arn (Some v) (Some rgn) = Returns r ->
     Region r = Some rgn /\ Service r = Some v /\ populated r) /\
  (forall (Service_state : Type) GetResources fuel region
          (w w' : World Service_state) token resources resources',
     loop GetResources fuel region w token resources =
       Some (Returns (w', resources')) ->
     exists new,
       resources' = resources ++ new /\
       Forall (fun r => Region r = Some region /\ populated r) new) /\
  (forall (Service_state : Type) GetResources fuel args (s : Service_state) w t,
     main GetResources fuel args s = Some (Returns (w, t)) ->
     exists region resources,
       nth_error args 1 = Some region /\
       t = PrettyPrintResources resources /\
       Forall (fun r => Region r = Some region /\ populated r) resources).
Proof.
  assert (Hpop : forall (r : SingleResource) rgn v,
            Region r = Some rgn /\ Service r = Some v ->
            Region r = Some rgn /\ Service r = Some v /\ populated r).
  { intros r rgn v [Hr Hs]. unfold populated. rewrite Hr, Hs.
    repeat split; discriminate. }
  split; [intros sa v rgn r H; now apply Hpop, (@strategy_fields sa)|].
  split; [intros arn v rgn r H;
          now apply Hpop, (@ConvertArnToSingleResource_fields arn)|].
  split.
  - intros S G fuel region w w' token resources resources' H.
    destruct (loop_appends _ _ _ _ _ _ H) as (l & new & -> & Hnew).
    exists new. split; [reflexivity|].
    now apply (@classified_populated region l).
  - intros S G fuel args s w t H. unfold main in H.
    unfold index in H.
    destruct (nth_error args 1) as [region|]; [|discriminate].
    destruct (loop G fuel region _ "" []) as [[[w' resources]| |]|] eqn:E;
      try discriminate.
    injection H as <- <-.
    destruct (loop_appends _ _ _ _ _ _ E) as (l & new & Heq & Hnew).
    cbn [app] in Heq. subst resources.
    exists region, new. split; [reflexivity|]. split; [reflexivity|].
    now apply (@classified_populated region l).
Qed.

Lemma C7_region_and_service_witness :
  exists w t,
    main token_service 4 ["awslist"; "eu-west-1"] tt = Some (Returns (w, t)) /\
    exists resources,
      t = PrettyPrintResources resources /\
      Forall (fun r => Region r = Some "eu-west-1" /\ populated r) resources.
Proof.
  assert (E : exists w t,
            main token_service 4 ["awslist"; "eu-west-1"] tt =
            Some (Returns (w, t))) by (do 2 eexists; reflexivity).
  destruct E as (w & t & E). exists w, t. split; [exact E|].
  destruct (proj2 (proj2 (proj2 C7_region_and_service_populated))
              unit token_service 4 ["awslist"; "eu-west-1"] tt w t E)
    as (region & resources & Hregion & Ht & Hall).
  injection Hregion as <-.
  exists resources. split; assumption.
Defined.

(** ** Requests issued by the loop *)

Lemma call_requests (Service_state : Type) GetResources
  (w w' : World Service_state) input out :
  call GetResources w input = (w', out) ->
  requests w' = requests w ++ [input].
Proof.
  unfold call. destruct (GetResources (service w) input) as [s' [o|err]];
    intros H; injection H as <- _; reflexivity.
Qed.

(** With an empty token the pass calls the service in the branch and once
    more behind it: whenever the first pass comes back, two requests without a
    token have gone out, and the answer to the first of them is dropped. *)
Lemma first_pass_requests_twice (Service_state : Type) GetResources
  (region : string) (w w' : World Service_state)
  resources token resources' stop :
  iteration GetResources region w "" resources =
    Returns (w', token, resources', stop) ->
  requests w' = requests w ++ [first_request; first_request].
Proof.
  unfold iteration. cbn [String.length Nat.eqb fst].
  fold first_request.
  destruct (call GetResources w first_request) as [w1 o1] eqn:E1. cbn [fst].
  destruct (call GetResources w1 first_request) as [w2 [o|]] eqn:E2;
    [|discriminate].
  destruct (collect region (ResourceTagMappingList o) resources);
    try discriminate.
  cbn [bind]. destruct (NextPaginationToken o); [|discriminate].
  cbn [bind deref]. intros H. injection H as <- _ _ _.
  rewrite (call_requests _ _ _ E2), (call_requests _ _ _ E1), <- app_assoc.
  reflexivity.
Qed.

(** C2 (the code departs from it): against a service that answers by token
    with three pages (next tokens "t1", "t2", "") the run ends with all the
    records of the three pages in order, but FOUR requests have gone out: the
    first page is asked for twice, both times without a token.  Against a
    scripted service that hands out the three answers in turn, three requests
    go out, the third carries "t2", and the records of the first page are
    missing.  In general the first pass always issues two requests. *)
Theorem C2_first_page_requested_twice :
  (exists w t,
     main token_service 4 ["awslist"; "eu-west-1"] tt = Some (Returns (w, t)) /\
     map PaginationToken (requests w) = [None; None; Some "t1"; Some "t2"] /\
     List.length (requests w) = 4 /\
     stdout w = [] /\
     rows t = [["eu-west-1"; "ec2"; "instance"; "i-0123abcd"];
               ["eu-west-1"; "s3"; ""; "my-bucket"];
               ["eu-west-1"; "ecs"; "cluster"; "prod"];
               ["eu-west-1"; "rds"; ""; "db/orders"]]) /\
  (exists w t,
     main scripted_service 4 ["awslist"; "eu-west-1"] three_pages =
       Some (Returns (w, t)) /\
     map PaginationToken (requests w) = [None; None; Some "t2"] /\
     rows t = [["eu-west-1"; "ecs"; "cluster"; "prod"];
               ["eu-west-1"; "rds"; ""; "db/orders"]]) /\
  (forall (Service_state : Type) GetResources region
          (w w' : World Service_state) resources token resources' stop,
     iteration GetResources region w "" resources =
       Returns (w', token, resources', stop) ->
     requests w' = requests w ++ [first_request; first_request]).
Proof.
  split.
  { do 2 eexists. split; [reflexivity|]. repeat split; reflexivity. }
  split.
  { do 2 eexists. split; [reflexivity|]. split; reflexivity. }
  intros S G region w w' resources token resources' stop.
  apply first_pass_requests_twice.
Qed.

(** ** Segments, colons and slashes *)

Lemma Split_length_count (a : ascii) (s : string) :
  List.length (strings.Split s (String a EmptyString)) = S (count_byte a s).
Proof.
  induction s as [|c s IH]; [reflexivity|].
  rewrite Split_cons. cbn [count_byte].
  destruct (Ascii.eqb a c).
  - cbn [List.length]. now rewrite IH.
  - destruct (strings.Split s (String a EmptyString)); [discriminate IH|].
    exact IH.
Qed.

Lemma Split_segments_free (a : ascii) (s : string) :
  Forall (fun x => has_byte a x = false)
         (strings.Split s (String a EmptyString)).
Proof.
  induction s as [|c s IH]; [repeat constructor|].
  rewrite Split_cons. destruct (Ascii.eqb a c) eqn:E.
  - constructor; [reflexivity | exact IH].
  - destruct (strings.Split s (String a EmptyString)) as [|piece rest];
      [repeat constructor; simpl; now rewrite E|].
    inversion IH as [|? ? Hp Hr]; subst.
    constructor; [|exact Hr]. simpl. now rewrite E, Hp.
Qed.

Lemma Join_cons_byte (c : ascii) (piece sep : string) (rest : list string) :
  strings.Join (String c piece :: rest) sep =
  String c (strings.Join (piece :: rest) sep).
Proof. destruct rest; reflexivity. Qed.

(** Splitting at the colons and joining with slashes changes the colons into
    slashes and nothing else. *)
Lemma Join_Split_colons_to_slashes (s : string) :
  strings.Join (strings.Split s ":") "/" = colons_to_slashes s.
Proof.
  induction s as [|c s IH]; [reflexivity|].
  rewrite Split_cons. cbn [colons_to_slashes].
  pose proof (Split_not_nil ":" s) as Hne.
  destruct (strings.Split s ":") as [|piece rest]; [congruence|].
  destruct (Ascii.eqb ":" c).
  - cbn [strings.Join append]. now rewrite <- IH.
  - rewrite Join_cons_byte. now rewrite IH.
Qed.

Lemma has_byte_app (a : ascii) (x y : string) :
  has_byte a (x ++ y) = has_byte a x || has_byte a y.
Proof.
  induction x as [|c x IH]; [reflexivity|].
  cbn [append has_byte]. now rewrite IH, orb_assoc.
Qed.

Lemma has_byte_Join (a : ascii) (sep : string) (l : list string) :
  has_byte a sep = false ->
  Forall (fun x => has_byte a x = false) l ->
  has_byte a (strings.Join l sep) = false.
Proof.
  intros Hsep. induction 1 as [|x l Hx Hl IH]; [reflexivity|].
  destruct l as [|y l]; [exact Hx|].
  change (strings.Join (x :: y :: l) sep)
    with (x ++ sep ++ strings.Join (y :: l) sep)%string.
  now rewrite !has_byte_app, Hx, Hsep, IH.
Qed.

Lemma Forall_skipn_free (A : Type) (P : A -> Prop) (n : nat) :
  forall l, Forall P l -> Forall P (skipn n l).
Proof.
  induction n as [|n IH]; intros l H; [exact H|].
  destruct H as [|x l Hx Hl]; [constructor|]. now apply IH.
Qed.

Lemma count_byte_has_byte (a : ascii) (s : string) :
  has_byte a s = negb (Nat.eqb (count_byte a s) 0).
Proof.
  induction s as [|c s IH]; [reflexivity|].
  cbn [has_byte count_byte]. destruct (Ascii.eqb a c); [reflexivity|].
  exact IH.
Qed.

(** A string with the separator splits into what stands before the first one
    and the segments of what stands behind it. *)
Lemma Split_upto_behind (a : ascii) (s : string) :
  strings.Split s (String a EmptyString) =
  if has_byte a s
  then upto_byte a s :: strings.Split (behind_byte a s) (String a EmptyString)
  else [s].
Proof.
  induction s as [|c s IH]; [reflexivity|].
  rewrite Split_cons. cbn [has_byte upto_byte behind_byte].
  destruct (Ascii.eqb a c); [reflexivity|].
  cbn [orb]. rewrite IH. now destruct (has_byte a s).
Qed.

(** X1: when the first five colon-delimited segments of an ARN are given,
    whatever they are, the short ARN is the rest of the ARN with every colon
    turned into a slash. *)
Theorem X1_short_arn_is_resource_with_slashes
  (p0 p1 p2 p3 p4 resource : string) :
  colon_free p0 -> colon_free p1 -> colon_free p2 ->
  colon_free p3 -> colon_free p4 ->
  ShortArn (Some (p0 ++ ":" ++ p1 ++ ":" ++ p2 ++ ":" ++ p3 ++ ":" ++ p4
                     ++ ":" ++ resource)%string) =
  Returns (colons_to_slashes resource).
Proof.
  intros H0 H1 H2 H3 H4. unfold ShortArn, deref, bind, slice_from.
  change (p0 ++ ":" ++ p1 ++ ":" ++ p2 ++ ":" ++ p3 ++ ":" ++ p4
             ++ ":" ++ resource)%string
    with (p0 ++ String ":" (p1 ++ String ":" (p2 ++ String ":"
            (p3 ++ String ":" (p4 ++ String ":" resource)))))%string.
  rewrite !Split_segment by assumption.
  cbn [List.length Nat.leb skipn].
  now rewrite Join_Split_colons_to_slashes.
Qed.

Lemma X1_short_arn_witness :
  ShortArn (Some "x:y::z:0:table/orders:stream:2024") =
  Returns "table/orders/stream/2024".
Proof.
  apply (@X1_short_arn_is_resource_with_slashes
           "x" "y" "" "z" "0" "table/orders:stream:2024"); reflexivity.
Defined.

Lemma ShortArn_by_colons (arn : string) :
  ShortArn (Some arn) =
  if Nat.leb 4 (count_byte ":" arn)
  then Returns (strings.Join (skipn 5 (strings.Split arn ":")) "/")
  else Panics (SliceBoundsOutOfRange 5 (S (count_byte ":" arn))).
Proof.
  unfold ShortArn, deref, bind, slice_from.
  rewrite Split_length_count.
  change (Nat.leb 5 (S (count_byte ":" arn)))
    with (Nat.leb 4 (count_byte ":" arn)).
  now destruct (Nat.leb 4 (count_byte ":" arn)).
Qed.

Lemma Returns_inj (A : Type) (x y : A) : Returns x = Returns y -> x = y.
Proof. intros H. now injection H. Qed.

(** X2: [ShortArn] returns exactly when the ARN holds at least four colons;
    with fewer it stops with the slice-bounds panic, whose length is the
    number of segments (one more than the number of colons). *)
Theorem X2_short_arn_needs_four_colons (arn : string) :
  ShortArn (Some arn) =
  if Nat.leb 4 (count_byte ":" arn)
  then Returns (strings.Join (skipn 5 (strings.Split arn ":")) "/")
  else Panics (SliceBoundsOutOfRange 5 (S (count_byte ":" arn))).
Proof.
  unfold ShortArn, deref, bind, slice_from.
  rewrite Split_length_count.
  change (Nat.leb 5 (S (count_byte ":" arn)))
    with (Nat.leb 4 (count_byte ":" arn)).
  now destruct (Nat.leb 4 (count_byte ":" arn)).
Qed.

(** X3: a short ARN never holds a colon, whatever ARN it comes from. *)
Theorem X3_short_arn_has_no_colon (arn : option string) (shortArn : string) :
  ShortArn arn = Returns shortArn -> colon_free shortArn.
Proof.
  destruct arn as [a|]; [|discriminate].
  rewrite ShortArn_by_colons.
  destruct (Nat.leb 4 (count_byte ":" a)); [|discriminate].
  intros H. apply Returns_inj in H. subst shortArn.
  apply has_byte_Join; [reflexivity|].
  apply Forall_skipn_free, Split_segments_free.
Qed.

Lemma X3_short_arn_no_colon_witness :
  colon_free "db/orders".
Proof.
  apply (@X3_short_arn_has_no_colon
           (Some "arn:aws:rds:eu-west-1:123456789012:db:orders")).
  reflexivity.
Defined.

(** ** More about the strategies *)

Lemma upto_byte_free (a : ascii) (s : string) :
  has_byte a s = false -> upto_byte a s = s.
Proof.
  induction s as [|c s IH]; [reflexivity|].
  cbn [has_byte upto_byte]. intros H. apply orb_false_iff in H.
  destruct H as [Hc Hs]. now rewrite Hc, (IH Hs).
Qed.

Lemma Split_head (a : ascii) (s : string) :
  nth_error (strings.Split s (String a EmptyString)) 0 = Some (upto_byte a s).
Proof.
  rewrite Split_upto_behind. destruct (has_byte a s) eqn:E; [reflexivity|].
  now rewrite upto_byte_free.
Qed.

Lemma split_strategy (sa : string) (svc rgn : option string) :
  (s0 <- index (strings.Split sa "/") 0 ;;
   s1 <- index (strings.Split sa "/") 1 ;;
   Returns {| ARN := Some sa; Region := rgn; Service := svc;
              Product := Some s0; ID := Some s1; Details := None |}) =
  if has_byte "/" sa
  then Returns {| Region := rgn; Service := svc;
                  Product := Some (upto_byte "/" sa); Details := None;
                  ID := Some (upto_byte "/" (behind_byte "/" sa));
                  ARN := Some sa |}
  else Panics (IndexOutOfRange 1 1).
Proof.
  rewrite Split_upto_behind. destruct (has_byte "/" sa); [|reflexivity].
  pose proof (Split_head "/" (behind_byte "/" sa)) as Hhead.
  destruct (strings.Split (behind_byte "/" sa) "/") as [|s1 l];
    [discriminate Hhead|].
  cbn [nth_error] in Hhead. apply (f_equal (fun o => match o with
                                                     | Some x => x
                                                     | None => EmptyString
                                                     end)) in Hhead.
  subst s1. reflexivity.
Qed.

(** X4: the ec2 strategy and the ecs strategy return a record exactly when the
    short ARN holds a slash.  The product is then what stands before the first
    slash and the identifier what stands between the first slash and the
    second (or the end); without a slash both stop with the index panic. *)
Theorem X4_split_strategies_need_a_slash (sa : string) (svc rgn : option string) :
  awsEC2_ConvertToResource (Some sa) svc rgn =
    (if has_byte "/" sa
     then Returns {| Region := rgn; Service := svc;
                     Product := Some (upto_byte "/" sa); Details := None;
                     ID := Some (upto_byte "/" (behind_byte "/" sa));
                     ARN := Some sa |}
     else Panics (IndexOutOfRange 1 1)) /\
  awsECS_ConvertToResource (Some sa) svc rgn =
    awsEC2_ConvertToResource (Some sa) svc rgn.
Proof.
  split; [|reflexivity].
  unfold awsEC2_ConvertToResource. cbn [deref bind].
  apply split_strategy.
Qed.

(** X5: whatever follows a second slash of the short ARN is dropped by the
    ec2 and the ecs strategy: for <p>/<i>/<rest> the product is <p> and the
    identifier is <i>, as for <p>/<i>, so the last part of a path of three is
    not shown. *)
Theorem X5_segments_behind_the_second_are_dropped
  (p i rest : string) (svc rgn : option string) :
  has_byte "/" p = false -> has_byte "/" i = false ->
  awsECS_ConvertToResource (Some (p ++ "/" ++ i ++ "/" ++ rest)%string) svc rgn =
    Returns {| Region := rgn; Service := svc; Product := Some p;
               Details := None; ID := Some i;
               ARN := Some (p ++ "/" ++ i ++ "/" ++ rest)%string |} /\
  awsEC2_ConvertToResource (Some (p ++ "/" ++ i ++ "/" ++ rest)%string) svc rgn =
    Returns {| Region := rgn; Service := svc; Product := Some p;
               Details := None; ID := Some i;
               ARN := Some (p ++ "/" ++ i ++ "/" ++ rest)%string |} /\
  awsEC2_ConvertToResource (Some (p ++ "/" ++ i)%string) svc rgn =
    Returns {| Region := rgn; Service := svc; Product := Some p;
               Details := None; ID := Some i;
               ARN := Some (p ++ "/" ++ i)%string |}.
Proof.
  intros Hp Hi.
  unfold awsECS_ConvertToResource, awsEC2_ConvertToResource.
  cbn [deref bind].
  change (p ++ "/" ++ i ++ "/" ++ rest)%string
    with (p ++ String "/" (i ++ String "/" rest))%string.
  change (p ++ "/" ++ i)%string with (p ++ String "/" i)%string.
  rewrite !Split_segment by assumption.
  rewrite (Split_no_sep "/" i Hi).
  repeat split.
Qed.

Lemma X5_segments_dropped_witness :
  awsECS_ConvertToResource
    (Some "service/prod-cluster/checkout") (Some "ecs") (Some "eu-west-1") =
  Returns {| Region := Some "eu-west-1"; Service := Some "ecs";
             Product := Some "service"; Details := None;
             ID := Some "prod-cluster";
             ARN := Some "service/prod-cluster/checkout" |}.
Proof.
  apply (@X5_segments_behind_the_second_are_dropped
           "service" "prod-cluster" "checkout"); reflexivity.
Defined.

(** X6: every record that the classification returns holds the short ARN (not
    the ARN) in its ARN field, has an identifier, and has no details; its
    product is unset exactly when the service identifier is neither "ec2" nor
    "ecs". *)
Theorem X6_fields_of_a_classified_record
  (arn svc rgn : option string) (r : SingleResource) :
  ConvertArnToSingleResource arn svc rgn = Returns r ->
  exists shortArn v,
    ShortArn arn = Returns shortArn /\ svc = Some v /\
    ARN r = Some shortArn /\ Region r = rgn /\ Service r = svc /\
    Details r = None /\ ID r <> None /\
    (Product r = None <-> v <> "ec2" /\ v <> "ecs").
Proof.
  unfold ConvertArnToSingleResource.
  destruct (ShortArn arn) as [sa| |]; try discriminate.
  destruct svc as [v|]; [|discriminate]. cbn [bind deref].
  intros H. exists sa, v.
  assert (Hsplit : forall r',
    awsEC2_ConvertToResource (Some sa) (Some v) rgn = Returns r' ->
    ARN r' = Some sa /\ Region r' = rgn /\ Service r' = Some v /\
    Details r' = None /\ ID r' <> None /\ Product r' <> None).
  { intros r'. unfold awsEC2_ConvertToResource. cbn [deref bind].
    rewrite split_strategy.
    destruct (has_byte "/" sa); [|discriminate].
    intros E. apply Returns_inj in E. subst r'. cbn.
    repeat split; discriminate. }
  split; [reflexivity|]. split; [reflexivity|].
  destruct (String.eqb_spec v "ec2") as [E1|E1].
  - destruct (Hsplit r H) as (Ha & Hr & Hs & Hd & Hi & Hp).
    intuition congruence.
  - destruct (String.eqb_spec v "ecs") as [E2|E2].
    + destruct (Hsplit r H) as (Ha & Hr & Hs & Hd & Hi & Hp).
      intuition congruence.
    + apply Returns_inj in H. subst r. cbn.
      intuition congruence.
Qed.

Lemma X6_fields_witness :
  exists shortArn,
    ShortArn (Some "arn:aws:s3:::my-bucket") = Returns shortArn /\
    Some "my-bucket" = Some shortArn.
Proof.
  destruct (@X6_fields_of_a_classified_record
              (Some "arn:aws:s3:::my-bucket") (Some "s3") (Some "eu-west-1")
              {| Region := Some "eu-west-1"; Service := Some "s3";
                 Product := None; Details := None;
                 ID := Some "my-bucket"; ARN := Some "my-bucket" |}
              eq_refl)
    as (sa & v & Hs & _ & Ha & _).
  exists sa. split; [exact Hs | exact Ha].
Defined.

(** ** From an entry of a page to its record *)

Lemma not_ending_in_arn (svc : string) :
  svc = "ec2" \/ svc = "ecs" -> forall q, svc <> (q ++ "arn")%string.
Proof.
  intros [-> | ->] q; destruct q as [|a [|b [|c [|d q]]]]; discriminate.
Qed.

Lemma before_first_colon_arn (s : string) :
  strings.HasPrefix s "arn:" = true -> before_first_colon s = "arn".
Proof.
  destruct s as [|c0 [|c1 [|c2 [|c3 s]]]]; cbn [strings.HasPrefix];
    try discriminate; intros H;
    repeat match goal with
           | H : (_ && _)%bool = true |- _ =>
               apply andb_true_iff in H; destruct H
           | H : Ascii.eqb _ _ = true |- _ => apply Ascii.eqb_eq in H
           end;
    subst; try discriminate; reflexivity.
Qed.

(** X7: an entry whose ARN starts with "arn:" but holds no "arn:aws:" (an ARN
    of another partition, such as "aws-cn") is given the service "arn" by the
    loop, whatever its service segment says, and so goes to the generic
    strategy: no product, the whole short ARN as identifier. *)
Theorem X7_other_partitions_are_service_arn (region s : string) :
  strings.Contains s "arn:aws:" = false ->
  strings.HasPrefix s "arn:" = true ->
  classify region (mapping s) =
    (shortArn <- ShortArn (Some s) ;;
     Returns {| Region := Some region; Service := Some "arn";
                Product := None; Details := None;
                ID := Some shortArn; ARN := Some shortArn |}).
Proof.
  intros Habsent Harn. unfold classify. cbn [ResourceARN mapping].
  rewrite ServiceNameFromARN_total, Replace_absent by exact Habsent.
  rewrite before_first_colon_arn by exact Harn. cbn [bind].
  unfold ConvertArnToSingleResource.
  destruct (ShortArn (Some s)); reflexivity.
Qed.

Lemma X7_other_partitions_witness :
  classify "cn-north-1"
    (mapping "arn:aws-cn:ec2:cn-north-1:123456789012:instance/i-0123abcd") =
  Returns {| Region := Some "cn-north-1"; Service := Some "arn";
             Product := None; Details := None;
             ID := Some "instance/i-0123abcd";
             ARN := Some "instance/i-0123abcd" |}.
Proof.
  apply (@X7_other_partitions_are_service_arn "cn-north-1"
           "arn:aws-cn:ec2:cn-north-1:123456789012:instance/i-0123abcd");
    reflexivity.
Defined.

(** X8: for an ARN arn:aws:<svc>:<rg>:<acct>:<p>/<i> with <svc> "ec2" or
    "ecs" (segments without colon, <p> and <i> without slash) the loop builds
    the record with service <svc>, product <p> and identifier <i>; its region
    is the region of the run, not the segment <rg> of the ARN. *)
Theorem X8_entry_to_record (region svc rg acct p i : string) :
  svc = "ec2" \/ svc = "ecs" ->
  colon_free rg -> colon_free acct -> colon_free p -> colon_free i ->
  has_byte "/" p = false -> has_byte "/" i = false ->
  classify region (mapping (aws_arn svc rg acct (p ++ "/" ++ i))) =
  Returns {| Region := Some region; Service := Some svc;
             Product := Some p; Details := None; ID := Some i;
             ARN := Some (p ++ "/" ++ i)%string |}.
Proof.
  intros Hsvc Hrg Hacct Hp Hi Hps His.
  assert (Hs : colon_free svc) by (destruct Hsvc; subst; reflexivity).
  assert (Hres : colon_free (p ++ "/" ++ i)).
  { unfold colon_free in *. now rewrite !has_byte_app, Hp, Hi. }
  unfold classify. cbn [ResourceARN mapping].
  rewrite ServiceNameFromARN_aws_arn;
    [|assumption|assumption|intros _; now apply not_ending_in_arn].
  cbn [bind]. unfold ConvertArnToSingleResource, ShortArn, deref, slice_from.
  cbn [bind]. rewrite aws_arn_segments by assumption.
  rewrite (Split_no_sep ":" _ Hres).
  cbn [List.length Nat.leb skipn bind strings.Join].
  assert (Hsplit : strings.Split (p ++ "/" ++ i) "/" = [p; i]).
  { change (p ++ "/" ++ i)%string with (p ++ String "/" i)%string.
    now rewrite Split_segment, (Split_no_sep "/" i His). }
  destruct Hsvc; subst svc; cbn [String.eqb Ascii.eqb Bool.eqb];
    unfold awsEC2_ConvertToResource, awsECS_ConvertToResource;
    cbn [deref bind]; rewrite Hsplit; reflexivity.
Qed.

Lemma X8_entry_to_record_witness :
  classify "eu-west-1"
    (mapping "arn:aws:ecs:us-east-1:123456789012:cluster/prod") =
  Returns {| Region := Some "eu-west-1"; Service := Some "ecs";
             Product := Some "cluster"; Details := None; ID := Some "prod";
             ARN := Some "cluster/prod" |}.
Proof.
  apply (@X8_entry_to_record "eu-west-1" "ecs" "us-east-1" "123456789012"
           "cluster" "prod"); try reflexivity. now right.
Defined.

(** ** The inner loop *)

Lemma collect_cons (region : string) (m : ResourceTagMapping)
  (l : list ResourceTagMapping) (acc : list SingleResource) :
  collect region (m :: l) acc =
  (r <- classify region m ;; collect region l (acc ++ [r])).
Proof.
  cbn [collect]. unfold classify.
  destruct (ServiceNameFromARN (ResourceARN m)); reflexivity.
Qed.

Lemma Forall2_nth_error_left (A B : Type) (R : A -> B -> Prop)
  (l : list A) (l' : list B) :
  Forall2 R l l' ->
  forall i a, nth_error l i = Some a ->
              exists b, nth_error l' i = Some b /\ R a b.
Proof.
  induction 1 as [|x y l l' Hxy _ IH]; intros [|i] a Ha; try discriminate.
  - injection Ha as <-. exists y. split; [reflexivity | exact Hxy].
  - exact (IH i a Ha).
Qed.

(** X9: when the inner loop comes back, the records it was given are still at
    the front, unchanged, and behind them stands exactly one record per entry
    of the page, in the order of the page: the record of that entry. *)
Theorem X9_one_record_per_entry_in_order
  (region : string) (l : list ResourceTagMapping)
  (acc out : list SingleResource) :
  collect region l acc = Returns out ->
  List.length out = List.length acc + List.length l /\
  firstn (List.length acc) out = acc /\
  forall i m, nth_error l i = Some m ->
    exists r, nth_error out (List.length acc + i) = Some r /\
              classify region m = Returns r.
Proof.
  intros H. destruct (collect_returns _ _ _ H) as (new & -> & Hnew).
  split; [rewrite length_app, (Forall2_length Hnew); reflexivity|].
  split.
  - rewrite firstn_app, Nat.sub_diag, firstn_all. cbn [firstn].
    apply app_nil_r.
  - intros i m Hi.
    destruct (Forall2_nth_error_left Hnew _ Hi) as (r & Hr & Hc).
    exists r. split; [|exact Hc].
    rewrite nth_error_app2 by lia.
    now replace (List.length acc + i - List.length acc) with i by lia.
Qed.

Lemma X9_one_record_per_entry_witness :
  collect "eu-west-1" page_3
    [{| Region := Some "eu-west-1"; Service := Some "ecs";
        Product := Some "cluster"; Details := None; ID := Some "prod";
        ARN := Some "cluster/prod" |}] =
  Returns
    [{| Region := Some "eu-west-1"; Service := Some "ecs";
        Product := Some "cluster"; Details := None; ID := Some "prod";
        ARN := Some "cluster/prod" |};
     {| Region := Some "eu-west-1"; Service := Some "rds";
        Product := None; Details := None; ID := Some "db/orders";
        ARN := Some "db/orders" |}] /\
  exists r,
    nth_error
      [{| Region := Some "eu-west-1"; Service := Some "ecs";
          Product := Some "cluster"; Details := None; ID := Some "prod";
          ARN := Some "cluster/prod" |};
       {| Region := Some "eu-west-1"; Service := Some "rds";
          Product := None; Details := None; ID := Some "db/orders";
          ARN := Some "db/orders" |}] (1 + 0) = Some r /\
    classify "eu-west-1"
      (mapping "arn:aws:rds:eu-west-1:123456789012:db:orders") = Returns r.
Proof.
  split; [reflexivity|].
  apply (proj2 (proj2 (@X9_one_record_per_entry_in_order "eu-west-1" page_3
           [{| Region := Some "eu-west-1"; Service := Some "ecs";
               Product := Some "cluster"; Details := None; ID := Some "prod";
               ARN := Some "cluster/prod" |}] _ eq_refl))).
  reflexivity.
Defined.

(** X10: one entry that cannot be classified stops the inner loop: when the
    entries before it can be classified and it ends in a panic, the inner
    loop ends in that panic, whatever follows and whatever was collected; no
    records come back. *)
Theorem X10_first_bad_entry_stops_the_loop
  (region : string) (l1 l2 : list ResourceTagMapping) (m : ResourceTagMapping)
  (e : runtime_error) :
  Forall (classifiable region) l1 ->
  classify region m = Panics e ->
  forall acc, collect region (l1 ++ m :: l2) acc = Panics e.
Proof.
  intros Hl1 Hm. induction Hl1 as [|x l1 [r Hx] _ IH]; intros acc.
  - cbn [app]. now rewrite collect_cons, Hm.
  - cbn [app]. rewrite collect_cons, Hx. cbn [bind]. apply IH.
Qed.

Lemma X10_first_bad_entry_witness :
  collect "eu-west-1"
    (page_1 ++ mapping "arn:aws:ec2:eu-west-1:123456789012:instance" :: page_2)
    [] = Panics (IndexOutOfRange 1 1).
Proof.
  apply (@X10_first_bad_entry_stops_the_loop "eu-west-1" page_1 page_2).
  - repeat constructor; eexists; reflexivity.
  - reflexivity.
Defined.



(** ** One pass of the outer loop *)

Section PassFacts.

Variable Service_state : Type.
Variable GetResources :
  Service_state -> GetResourcesInput ->
  Service_state * (GetResourcesOutput + string).

Lemma call_service (w : World Service_state) (input : GetResourcesInput) :
  service (fst (call GetResources w input)) =
  fst (GetResources (service w) input).
Proof.
  unfold call. now destruct (GetResources (service w) input) as [s' [o|err]].
Qed.

Lemma world_before_page_service (w : World Service_state) (token : string) :
  service (world_before_page GetResources w token) =
  service_before_page GetResources (service w) token.
Proof.
  unfold world_before_page, service_before_page.
  destruct (Nat.eqb (String.length token) 0); [apply call_service | reflexivity].
Qed.

Lemma iteration_page (region : string) (w : World Service_state)
  (token : string) (resources : list SingleResource) :
  iteration GetResources region w token resources =
  match call GetResources (world_before_page GetResources w token)
          (page_request token) with
  | (w2, None) => Panics NilPointerDereference
  | (w2, Some o) =>
      resources' <- collect region (ResourceTagMappingList o) resources ;;
      token' <- deref (NextPaginationToken o) ;;
      Returns (w2, token', resources', String.eqb token' "")
  end.
Proof.
  unfold iteration, world_before_page, page_request.
  destruct (Nat.eqb (String.length token) 0); reflexivity.
Qed.

(** X12: when the service answers the page request with an error, the pass
    neither skips the page nor ends the run in order: it stops with a
    nil-pointer panic on the missing output. *)
Theorem X12_error_answer_panics (region : string) (w : World Service_state)
  (token : string) (resources : list SingleResource)
  (s' : Service_state) (err : string) :
  GetResources (service_before_page GetResources (service w) token)
               (page_request token) = (s', inr err) ->
  iteration GetResources region w token resources =
  Panics NilPointerDereference.
Proof.
  intros H. rewrite iteration_page. unfold call.
  now rewrite world_before_page_service, H.
Qed.

(** X13: an answer whose pagination token is nil (absent) does not end the
    loop: once the entries of the page are classified, the pass stops with a
    nil-pointer panic. *)
Theorem X13_nil_token_panics (region : string) (w : World Service_state)
  (token : string) (resources : list SingleResource)
  (s' : Service_state) (o : GetResourcesOutput) :
  GetResources (service_before_page GetResources (service w) token)
               (page_request token) = (s', inl o) ->
  NextPaginationToken o = None ->
  iteration GetResources region w token resources =
  (resources' <- collect region (ResourceTagMappingList o) resources ;;
   Panics NilPointerDereference).
Proof.
  intros H Hnil. rewrite iteration_page. unfold call.
  rewrite world_before_page_service, H, Hnil.
  now destruct (collect region (ResourceTagMappingList o) resources).
Qed.

(** X14: an error answer to the very first request is survived: it is
    printed, the request is made again, and the pass goes on with the second
    answer as if nothing had happened. *)
Theorem X14_first_error_is_only_printed (region : string)
  (w : World Service_state) (resources resources' : list SingleResource)
  (s1 s2 : Service_state) (err token' : string) (o : GetResourcesOutput) :
  GetResources (service w) first_request = (s1, inr err) ->
  GetResources s1 first_request = (s2, inl o) ->
  NextPaginationToken o = Some token' ->
  collect region (ResourceTagMappingList o) resources = Returns resources' ->
  iteration GetResources region w "" resources =
  Returns ({| service := s2;
              requests := requests w ++ [first_request; first_request];
              stdout := stdout w ++ [err] |},
           token', resources', String.eqb token' "").
Proof.
  intros H1 H2 Htok Hcol. unfold iteration.
  cbn [String.length Nat.eqb]. fold first_request.
  unfold call at 2. rewrite H1. cbn [fst].
  unfold call. cbn [service requests stdout]. rewrite H2, Hcol, Htok.
  cbn [bind deref]. now rewrite <- app_assoc.
Qed.

(** What a pass that comes back has done to the world. *)
Lemma pass_world (region : string) (w w' : World Service_state)
  (token token' : string) (resources resources' : list SingleResource)
  (stop : bool) :
  iteration GetResources region w token resources =
    Returns (w', token', resources', stop) ->
  stop = String.eqb token' "" /\
  requests w' =
    requests w ++
    (if Nat.eqb (String.length token) 0 then [first_request; first_request]
     else [token_request token]) /\
  (stdout w' = stdout w \/
   token = "" /\
   exists err, snd (GetResources (service w) first_request) = inr err /\
               stdout w' = stdout w ++ [err]).
Proof.
  rewrite iteration_page.
  destruct (call GetResources (world_before_page GetResources w token)
              (page_request token))
    as [w2 [o|]] eqn:E2; [|discriminate].
  destruct (collect region (ResourceTagMappingList o) resources);
    try discriminate.
  cbn [bind]. destruct (NextPaginationToken o); [|discriminate].
  cbn [bind deref]. intros H. injection H as <- <- _ <-.
  split; [reflexivity|].
  pose proof (call_requests _ _ _ E2) as Hreq.
  assert (Hout : stdout w2 = stdout (world_before_page GetResources w token)).
  { revert E2. unfold call.
    destruct (GetResources _ _) as [s' [o'|err]]; intros E2;
      injection E2 as <- E2; [reflexivity | discriminate]. }
  unfold world_before_page, page_request in *.
  destruct token as [|c token]; cbn [String.length Nat.eqb] in *.
  - destruct (call GetResources w first_request) as [w1 o1] eqn:E1.
    cbn [fst] in *.
    rewrite Hreq, (call_requests _ _ _ E1), <- app_assoc.
    split; [reflexivity|]. rewrite Hout. revert E1. unfold call.
    destruct (GetResources (service w) first_request) as [s' [o'|err]];
      intros E1; injection E1 as <- _; cbn [stdout snd]; [now left|].
    right. split; [reflexivity|]. now exists err.
  - split; [exact Hreq | now left].
Qed.

End PassFacts.

Lemma X12_error_answer_witness :
  iteration token_service "eu-west-1"
    {| service := tt; requests := []; stdout := [] |} "bogus" [] =
  Panics NilPointerDereference.
Proof.
  apply (@X12_error_answer_panics unit token_service "eu-west-1"
           {| service := tt; requests := []; stdout := [] |} "bogus" []
           tt "InvalidParameterException: PaginationToken").
  reflexivity.
Defined.

Lemma X13_nil_token_witness :
  iteration scripted_service "eu-west-1"
    {| service := [inl {| NextPaginationToken := None;
                          ResourceTagMappingList := page_2 |}];
       requests := []; stdout := [] |} "t1" [] =
  Panics NilPointerDereference.
Proof.
  apply (@X13_nil_token_panics _ scripted_service "eu-west-1"
           {| service := [inl {| NextPaginationToken := None;
                                 ResourceTagMappingList := page_2 |}];
              requests := []; stdout := [] |} "t1" [] []
           {| NextPaginationToken := None;
              ResourceTagMappingList := page_2 |});
    reflexivity.
Defined.

Lemma X14_first_error_witness :
  iteration scripted_service "eu-west-1"
    {| service := [inr "ThrottlingException"; answer "" page_3];
       requests := []; stdout := [] |} "" [] =
  Returns ({| service := [];
              requests := [first_request; first_request];
              stdout := ["ThrottlingException"] |},
           "",
           [{| Region := Some "eu-west-1"; Service := Some "rds";
               Product := None; Details := None; ID := Some "db/orders";
               ARN := Some "db/orders" |}],
           true).
Proof.
  apply (@X14_first_error_is_only_printed _ scripted_service "eu-west-1"
           {| service := [inr "ThrottlingException"; answer "" page_3];
              requests := []; stdout := [] |}
           [] _ [answer "" page_3] [] "ThrottlingException" ""
           {| NextPaginationToken := Some "";
              ResourceTagMappingList := page_3 |});
    reflexivity.
Defined.

(** ** Whole runs of the outer loop *)

Section RunFacts.

Variable Service_state : Type.
Variable GetResources :
  Service_state -> GetResourcesInput ->
  Service_state * (GetResourcesOutput + string).

Lemma nonempty_token (token : string) :
  String.eqb token "" = false -> Nat.eqb (String.length token) 0 = false.
Proof. now destruct token. Qed.

(** X15: in a run of the loop that ends in order, the requests that went out
    are: for an empty starting token two requests without a token, for
    another starting token one request with it; then one request per further
    pass, each with a token that is not empty.  Every one of them asks for 50
    resources per page. *)
Theorem X15_requests_of_a_run (fuel : nat) (region : string) :
  forall (w w' : World Service_state) (token : string)
         (resources resources' : list SingleResource),
    loop GetResources fuel region w token resources =
      Some (Returns (w', resources')) ->
    exists tokens,
      Forall (fun t => t <> "") tokens /\
      requests w' =
        requests w ++
        (if Nat.eqb (String.length token) 0
         then [first_request; first_request] else [token_request token]) ++
        map token_request tokens.
Proof.
  induction fuel as [|fuel IH]; intros w w' token resources resources' H;
    [discriminate|].
  cbn [loop] in H.
  destruct (iteration GetResources region w token resources)
    as [[[[w1 token1] resources1] stop]| |] eqn:E; try discriminate.
  destruct (pass_world _ _ _ _ _ E) as (Hstop & Hreq & _).
  destruct stop.
  - injection H as <- <-. exists []. split; [constructor|].
    cbn [map]. now rewrite app_nil_r.
  - symmetry in Hstop.
    destruct (IH _ _ _ _ _ H) as (tokens & Hne & Hreq').
    rewrite (nonempty_token _ Hstop) in Hreq'.
    exists (token1 :: tokens). split.
    + constructor; [|exact Hne]. intros ->. discriminate Hstop.
    + rewrite Hreq', Hreq, <- !app_assoc. reflexivity.
Qed.

(** X18: a run of the loop that ends in order has printed nothing, or one
    line: the error that answered the very first request of a run started
    with the empty token. *)
Theorem X18_at_most_one_line_printed (fuel : nat) (region : string) :
  forall (w w' : World Service_state) (token : string)
         (resources resources' : list SingleResource),
    loop GetResources fuel region w token resources =
      Some (Returns (w', resources')) ->
    stdout w' = stdout w \/
    token = "" /\
    exists err, snd (GetResources (service w) first_request) = inr err /\
                stdout w' = stdout w ++ [err].
Proof.
  induction fuel as [|fuel IH]; intros w w' token resources resources' H;
    [discriminate|].
  cbn [loop] in H.
  destruct (iteration GetResources region w token resources)
    as [[[[w1 token1] resources1] stop]| |] eqn:E; try discriminate.
  destruct (pass_world _ _ _ _ _ E) as (Hstop & _ & Hout).
  destruct stop.
  - injection H as <- <-. exact Hout.
  - symmetry in Hstop.
    destruct (IH _ _ _ _ _ H) as [Hsame | (Hempty & _)].
    + rewrite Hsame. exact Hout.
    + subst token1. discriminate Hstop.
Qed.

Lemma collect_total (region : string) (l : list ResourceTagMapping) :
  Forall (classifiable region) l ->
  forall acc, exists out, collect region l acc = Returns out.
Proof.
  induction 1 as [|m l [r Hm] _ IH]; intros acc.
  - now exists acc.
  - rewrite collect_cons, Hm. cbn [bind]. apply IH.
Qed.

(** X16: the loop ends only on an empty token: against a service that always
    answers with a token that is not empty (and with entries that can be
    classified), no number of passes ends the loop. *)
Theorem X16_no_end_without_empty_token (region : string) :
  (forall s input, exists s' o t,
      GetResources s input = (s', inl o) /\
      NextPaginationToken o = Some t /\ t <> "" /\
      Forall (classifiable region) (ResourceTagMappingList o)) ->
  forall fuel (w : World Service_state) token resources,
    loop GetResources fuel region w token resources = None.
Proof.
  intros Hsvc. induction fuel as [|fuel IH]; intros w token resources;
    [reflexivity|].
  cbn [loop]. rewrite iteration_page. unfold call.
  destruct (Hsvc (service (world_before_page GetResources w token))
                 (page_request token))
    as (s' & o & t & -> & Htok & Hne & Hall).
  destruct (collect_total Hall resources) as [out ->].
  rewrite Htok. cbn [bind deref].
  apply String.eqb_neq in Hne. rewrite Hne. apply IH.
Qed.

End RunFacts.

Lemma X15_requests_of_a_run_witness :
  exists w' resources',
    loop token_service 4 "eu-west-1"
      {| service := tt; requests := []; stdout := [] |} "" [] =
      Some (Returns (w', resources')) /\
    exists tokens,
      Forall (fun t => t <> "") tokens /\
      requests w' =
        [] ++ [first_request; first_request] ++ map token_request tokens.
Proof.
  assert (E : exists w' resources',
            loop token_service 4 "eu-west-1"
              {| service := tt; requests := []; stdout := [] |} "" [] =
            Some (Returns (w', resources')))
    by (do 2 eexists; reflexivity).
  destruct E as (w' & resources' & E). exists w', resources'.
  split; [exact E|].
  exact (@X15_requests_of_a_run unit token_service 4 "eu-west-1" _ _ _ _ _ E).
Defined.

Lemma X18_at_most_one_line_witness :
  exists w' resources',
    loop scripted_service 4 "eu-west-1"
      {| service := [inr "ThrottlingException"; answer "" page_3];
         requests := []; stdout := [] |} "" [] =
      Some (Returns (w', resources')) /\
    (stdout w' = [] \/
     "" = "" /\
     exists err,
       snd (scripted_service
              [inr "ThrottlingException"; answer "" page_3] first_request) =
         inr err /\
       stdout w' = [] ++ [err]).
Proof.
  assert (E : exists w' resources',
            loop scripted_service 4 "eu-west-1"
              {| service := [inr "ThrottlingException"; answer "" page_3];
                 requests := []; stdout := [] |} "" [] =
            Some (Returns (w', resources')))
    by (do 2 eexists; reflexivity).
  destruct E as (w' & resources' & E). exists w', resources'.
  split; [exact E|].
  exact (@X18_at_most_one_line_printed _ scripted_service 4 "eu-west-1"
           _ _ _ _ _ E).
Defined.

Lemma X16_no_end_witness :
  loop endless_service 1000 "eu-west-1"
    {| service := tt; requests := []; stdout := [] |} "" [] = None.
Proof.
  apply (@X16_no_end_without_empty_token unit endless_service "eu-west-1").
  intros s input. exists s, {| NextPaginationToken := Some "more";
                               ResourceTagMappingList := page_2 |}, "more".
  split; [reflexivity|]. split; [reflexivity|]. split; [discriminate|].
  repeat constructor. eexists. reflexivity.
Defined.

(** ** The table of a run *)

(** X17: when [main] ends in order, the table it hands to the writer has the
    four-column header, and every row has four cells of which the first is
    the region given on the command line. *)
Theorem X17_every_row_starts_with_the_region
  (Service_state : Type)
  (GetResources : Service_state -> GetResourcesInput ->
                  Service_state * (GetResourcesOutput + string))
  (fuel : nat) (args : list string) (s : Service_state)
  (w : World Service_state) (t : Table) :
  main GetResources fuel args s = Some (Returns (w, t)) ->
  exists region,
    nth_error args 1 = Some region /\
    header t = ["Region"; "Service"; "Product"; "ID"] /\
    Forall (fun row => exists svc product id,
                         row = [region; svc; product; id]) (rows t).
Proof.
  intros H. unfold main, index in H.
  destruct (nth_error args 1) as [region|]; [|discriminate].
  destruct (loop GetResources fuel region _ "" []) as [[[w' resources]| |]|]
    eqn:E; try discriminate.
  injection H as <- <-.
  destruct (loop_appends _ _ _ _ _ _ E) as (l & new & Heq & Hnew).
  cbn [app] in Heq. subst resources.
  exists region. split; [reflexivity|]. split; [reflexivity|].
  unfold PrettyPrintResources. cbn [rows]. rewrite rows_accumulate.
  cbn [app]. apply Forall_map.
  apply (classified_populated) in Hnew.
  revert Hnew. apply Forall_impl. intros r [Hr _].
  unfold row_of. rewrite Hr. cbn [DerefNilPointerStrings]. eauto.
Qed.

Lemma X17_every_row_witness :
  exists w t,
    main token_service 4 ["awslist"; "eu-west-1"] tt = Some (Returns (w, t)) /\
    exists region,
      nth_error ["awslist"; "eu-west-1"] 1 = Some region /\
      header t = ["Region"; "Service"; "Product"; "ID"] /\
      Forall (fun row => exists svc product id,
                           row = [region; svc; product; id]) (rows t).
Proof.
  assert (E : exists w t,
            main token_service 4 ["awslist"; "eu-west-1"] tt =
            Some (Returns (w, t))) by (do 2 eexists; reflexivity).
  destruct E as (w & t & E). exists w, t. split; [exact E|].
  exact (@X17_every_row_starts_with_the_region
           unit token_service 4 ["awslist"; "eu-west-1"] tt w t E).
Defined.
